(** * UMA resource-server middleware: provider registry and protocol engine

    A shallow embedding of [resource_middleware.go] (package [uma]) and of the
    provider code kept in [pkg/rp/keycloak.go]: the per-issuer provider cache
    of the middleware, idempotent resource registration, the permission-ticket
    request and the UMA-ticket grant of the Keycloak client.

    Go pointers to providers are locations in a heap, Go maps are [gmap]s,
    a [(value, error)] return and a [panic] are the three cases of [res], and
    every outbound call, construction and downstream dispatch is recorded in
    an event trace so that "how many calls" is a statement about that trace. *)

From Stdlib Require Import ZArith List Lia.
From stdpp Require Import gmap strings list fin_maps pretty.
Import ListNotations.

Local Open Scope string_scope.
Local Open Scope list_scope.
Local Open Scope Z_scope.

(** ** JSON values and Go errors *)

#[warnings="-register-all"]
Inductive JSON :=
| JNull
| JBool (b : bool)
| JNum (n : Z)
| JStr (s : string)
| JArr (elems : list JSON)
| JObj (fields : list (string * JSON)).

(** The error taxonomy of the engine. [PanicValue] is a panic raised with a
    plain string, as in [panic("Realm unimplemented")]. *)
Inductive error :=
| ConfigurationError (msg : string)
| DiscoveryError (msg : string)
| ProtocolError (status : Z) (body : option JSON)
| TransportError (msg : string)
| DecodeError (msg : string)
| PanicValue (msg : string).

(** Outcome of a Go call: a normal return, a non-nil [err], or a panic. *)
Inductive res (A : Type) :=
| Ok (a : A)
| Err (e : error)
| Panic (e : error).
Arguments Ok {A} a.
Arguments Err {A} e.
Arguments Panic {A} e.

(** ** Data model *)

Definition loc := nat.

Record ResourceType := {
  rtType : string;
  IconUri : string;
  ResourceScopes : list string
}.

(** [uma.Resource] ([UMAResource] in the provider file): the embedded
    [ResourceType] plus [ID], [Name] and [URI]. *)
Record Resource := {
  resourceType : ResourceType;
  ID : string;
  Name : string;
  URI : string
}.

Definition setID (r : Resource) (id : string) : Resource :=
  {| resourceType := resourceType r; ID := id; Name := Name r; URI := URI r |}.

Record UMADiscovery := {
  ResourceRegistrationEndpoint : string;
  PermissionEndpoint : string;
  TokenEndpoint : string
}.

Definition emptyDiscovery : UMADiscovery :=
  {| ResourceRegistrationEndpoint := ""; PermissionEndpoint := ""; TokenEndpoint := "" |}.

(** [KeySet] is an interface with the single method [VerifySignature]. *)
Record KeySet := { keyVerifySignature : string -> res string }.

Definition ProviderType := string.
Definition Keycloak : ProviderType := "keycloak".

Record ProviderInfo := {
  Issuer : string;
  Type_ : ProviderType;
  ClientID : string;
  ClientSecret : string;
  piKeySet : KeySet
}.

Record baseProvider := {
  bpIssuer : string;
  bpClientID : string;
  bpClientSecret : string;
  bpKeySet : KeySet;
  bpUMADiscovery : UMADiscovery;
  ClientCreds : option string;
  registeredResources : gmap string string
}.

Definition newBaseProvider (issuer clientID clientSecret : string) (keySet : KeySet)
  : baseProvider :=
  {| bpIssuer := issuer;
     bpClientID := clientID;
     bpClientSecret := clientSecret;
     bpKeySet := keySet;
     bpUMADiscovery := emptyDiscovery;
     ClientCreds := None;
     registeredResources := ∅ |}.

Definition setRegistered (p : baseProvider) (m : gmap string string) : baseProvider :=
  {| bpIssuer := bpIssuer p;
     bpClientID := bpClientID p;
     bpClientSecret := bpClientSecret p;
     bpKeySet := bpKeySet p;
     bpUMADiscovery := bpUMADiscovery p;
     ClientCreds := ClientCreds p;
     registeredResources := m |}.

Definition setDiscovery (p : baseProvider) (d : UMADiscovery) : baseProvider :=
  {| bpIssuer := bpIssuer p;
     bpClientID := bpClientID p;
     bpClientSecret := bpClientSecret p;
     bpKeySet := bpKeySet p;
     bpUMADiscovery := d;
     ClientCreds := ClientCreds p;
     registeredResources := registeredResources p |}.

(** [keycloakProvider] embeds [*baseProvider]; the methods of the base are
    promoted to it. *)
Record keycloakProvider := { base : baseProvider }.

(** Inbound [*http.Request]: what the middleware reads of it, and the two
    values stashed in its context. *)
Record Request := {
  reqMethod : string;
  URLPath : string;
  reqHeader : list (string * string);
  ctxProvider : option loc;
  ctxResource : option Resource
}.

(** [setProvider]: [r.WithContext(context.WithValue(r.Context(), providerKey{}, p))]. *)
Definition setProvider (r : Request) (p : loc) : Request :=
  {| reqMethod := reqMethod r; URLPath := URLPath r; reqHeader := reqHeader r;
     ctxProvider := Some p; ctxResource := ctxResource r |}.

Definition setResource (r : Request) (res : Resource) : Request :=
  {| reqMethod := reqMethod r; URLPath := URLPath r; reqHeader := reqHeader r;
     ctxProvider := ctxProvider r; ctxResource := Some res |}.

(** [getProvider(r)] of the provider file: the context value, or nil. *)
Definition ctxGetProvider (r : Request) : option loc := ctxProvider r.

(** ** Outbound protocol calls *)

Record permissionRequest := {
  ResourceID : string;
  prResourceScopes : list string
}.

(** [url.Values] is [map[string][]string]. *)
Abbreviation Values := (gmap string (list string)).

(** The body handed to the request builder, before it is serialised. *)
Inductive Body :=
| BodyResource (r : Resource)
| BodyPermissions (ps : list permissionRequest)
| BodyForm (v : Values)
| BodyNone.

Record OutRequest := {
  oMethod : string;
  oURL : string;
  oHeader : list (string * string);
  oBody : Body
}.

Record Response := {
  StatusCode : Z;
  respBody : option JSON
}.

Inductive NetResult :=
| Reply (resp : Response)
| NetFail (e : error).

Inductive Event :=
| EvConstruct (issuer : string) (p : loc)
| EvDiscover (issuer : string) (p : loc)
| EvCall (p : loc) (req : OutRequest)
| EvToken (req : OutRequest)
| EvNext (r : Request).



(** ** Shared state and the call monad *)

Record MState := {
  providers : gmap string loc;
  heap : list keycloakProvider;
  trace : list Event
}.

Definition initState : MState :=
  {| providers := ∅; heap := []; trace := [] |}.

Definition M (A : Type) : Type := MState -> res A * MState.

Definition ret {A} (a : A) : M A := fun st => (Ok a, st).

Definition bind {A B} (c : M A) (k : A -> M B) : M B :=
  fun st =>
    match c st with
    | (Ok a, st') => k a st'
    | (Err e, st') => (Err e, st')
    | (Panic e, st') => (Panic e, st')
    end.

Notation "'let*' x ':=' c 'in' k" := (bind c (fun x => k))
  (at level 10, x pattern, c at level 100, k at level 200).

(** [return "", err] *)
Definition fail {A} (e : error) : M A := fun st => (Err e, st).

(** [panic(e)] *)
Definition panic {A} (e : error) : M A := fun st => (Panic e, st).

(** [if err := c; err != nil { panic(err) }] *)
Definition orPanic {A} (c : M A) : M A :=
  fun st =>
    match c st with
    | (Err e, st') => (Panic e, st')
    | other => other
    end.

Definition logEvent (ev : Event) (st : MState) : MState :=
  {| providers := providers st; heap := heap st; trace := trace st ++ [ev] |}.

Definition emit (ev : Event) : M unit :=
  fun st => (Ok tt, logEvent ev st).

(** Dereference of a provider pointer. *)
Definition getP (p : loc) : M baseProvider :=
  fun st =>
    match heap st !! p with
    | Some kp => (Ok (base kp), st)
    | None => (Panic (PanicValue "nil pointer dereference"), st)
    end.

Definition modP (p : loc) (f : baseProvider -> baseProvider) : M unit :=
  fun st =>
    match heap st !! p with
    | Some kp =>
        (Ok tt, {| providers := providers st;
                   heap := <[p := {| base := f (base kp) |}]> (heap st);
                   trace := trace st |})
    | None => (Panic (PanicValue "nil pointer dereference"), st)
    end.

(** Allocation of [&keycloakProvider{baseProvider: b}]. *)
Definition newKeycloakProvider (issuer : string) (b : baseProvider) : M loc :=
  fun st =>
    let p := length (heap st) in
    (Ok p, {| providers := providers st;
              heap := heap st ++ [{| base := b |}];
              trace := trace st ++ [EvConstruct issuer p] |}).

(** [m.providers[issuer] = p] *)
Definition cacheProvider (issuer : string) (p : loc) : M unit :=
  fun st => (Ok tt, {| providers := <[issuer := p]> (providers st);
                       heap := heap st; trace := trace st |}).

Definition lookupProvider (issuer : string) : M (option loc) :=
  fun st => (Ok (providers st !! issuer), st).

(** ** The provider protocol engine *)

Definition is2XX (status : Z) : bool := (200 <=? status) && (status <? 300).

(** Modelled from the spec: [ensure2XX] is not among the sources. A protocol
    call that returns a non-success status is a protocol error carrying the
    status and the body. *)
Definition ensure2XX (resp : Response) : option error :=
  if is2XX (StatusCode resp) then None
  else Some (ProtocolError (StatusCode resp) (respBody resp)).

Definition lookupField (name : string) (fields : list (string * JSON)) : option JSON :=
  snd <$> List.find (fun kv => bool_decide (fst kv = name)) fields.

(** One string field of a JSON object, decoded into a Go string. *)
Definition stringField (field : string) (fields : list (string * JSON)) : res string :=
  match lookupField field fields with
  | Some (JStr s) => Ok s
  | Some JNull | None => Ok ""
  | Some _ => Err (DecodeError "cannot unmarshal into string field")
  end.

(** Modelled from the spec: [decodeJSONResponse] is not among the sources.
    It decodes the body into a struct with one string field tagged [field]
    ([createResourceResponse], [permissionResponse]); a malformed body is a
    decode error, a missing field leaves the zero value. *)
Definition decodeJSONResponse (resp : Response) (field : string) : res string :=
  match respBody resp with
  | Some (JObj fields) => stringField field fields
  | Some JNull => Ok ""
  | Some _ => Err (DecodeError "cannot unmarshal into struct")
  | None => Err (DecodeError "invalid JSON")
  end.

(** Modelled from the spec: [jsonRequest] is not among the sources. It builds
    the request that carries [body] as JSON. *)
Definition jsonRequest (method url : string) (body : Body) : res OutRequest :=
  Ok {| oMethod := method; oURL := url;
        oHeader := [("Content-Type", "application/json")];
        oBody := body |}.

Definition lift {A} (r : res A) : M A := fun st => (r, st).

(** [%q] of [fmt]: the string between double quotes (a string that needs no
    escaping is printed as it is). *)
Definition quoted (s : string) : string :=
  let dq := String (Ascii.ascii_of_nat 34) EmptyString in
  dq +:+ s +:+ dq.

Definition MethodPost : string := "POST".

Section Engine.

(** The authorization server and the network between it and the
    middleware: what a call answers may depend on everything that happened
    before it. *)
Variable transport : list Event -> OutRequest -> NetResult.
Variable discoveryDocument : list Event -> string -> res UMADiscovery.

(** Modelled from the spec: [DoRequest] is not among the sources. It is the
    single chokepoint of outbound protocol calls: the request goes to the
    transport and the answer, or the transport failure, comes back. *)
Definition DoRequest (p : loc) (req : OutRequest) : M Response :=
  fun st =>
    let st' := logEvent (EvCall p req) st in
    match transport (trace st) req with
    | Reply resp => (Ok resp, st')
    | NetFail e => (Err e, st')
    end.

(** Modelled from the spec: [DiscoverUMA] is not among the sources. One
    fetch of the discovery document; on success it populates
    [UMADiscovery]. *)
Definition DiscoverUMA (p : loc) : M unit :=
  let* b := getP p in
  let* _ := emit (EvDiscover (bpIssuer b) p) in
  fun st =>
    match discoveryDocument (trace st) (bpIssuer b) with
    | Ok d => modP p (fun b => setDiscovery b d) st
    | Err e => (Err e, st)
    | Panic e => (Panic e, st)
    end.

Definition VerifySignature (p : loc) (jwt : string) : M string :=
  let* b := getP p in
  lift (keyVerifySignature (bpKeySet b) jwt).

Definition registerResource (p : loc) (resource : Resource) (register : M string)
  : M string :=
  let* b := getP p in
  match registeredResources b !! Name resource with
  | Some s => ret s
  | None =>
      let* resourceID := register in
      let* _ := modP p (fun b =>
                  setRegistered b (<[Name resource := resourceID]> (registeredResources b))) in
      ret resourceID
  end.

(** The closure passed to [registerResource] by [RegisterResource]. *)
Definition registerCall (p : loc) (resource : Resource) : M string :=
  let* b := getP p in
  let* req := lift (jsonRequest MethodPost
                      (ResourceRegistrationEndpoint (bpUMADiscovery b))
                      (BodyResource resource)) in
  let* resp := DoRequest p req in
  match ensure2XX resp with
  | Some err => fail err
  | None => lift (decodeJSONResponse resp "_id")
  end.

(** [RegisterResource] writes [resource.ID] through the pointer it is given:
    the second component is the pointed-to resource after the call. *)
Definition RegisterResource (p : loc) (resource : Resource)
  : MState -> res unit * Resource * MState :=
  fun st =>
    match registerResource p resource (registerCall p resource) st with
    | (Ok rid, st') => (Ok tt, setID resource rid, st')
    | (Err e, st') => (Err e, resource, st')
    | (Panic e, st') => (Panic e, resource, st')
    end.

Definition RequestPermissionTicket (p : loc) (resourceID : string) (scopes : list string)
  : M string :=
  let* b := getP p in
  let* req := lift (jsonRequest MethodPost
                      (PermissionEndpoint (bpUMADiscovery b))
                      (BodyPermissions
                         [{| ResourceID := resourceID; prResourceScopes := scopes |}])) in
  let* resp := DoRequest p req in
  match ensure2XX resp with
  | Some err => fail err
  | None => lift (decodeJSONResponse resp "ticket")
  end.


Definition Realm (p : loc) : M string :=
  panic (PanicValue "Realm unimplemented").

Definition AuthorizationServerURI (p : loc) : M string :=
  let* b := getP p in
  ret (bpIssuer b).

End Engine.

(** ** The resource matcher *)

Inductive Segment :=
| Lit (s : string)
| Var (name : string).

Record ResourceTemplate := {
  tmplType : string;
  tmplPath : list Segment;
  tmplName : list Segment
}.

Record URL := {
  Scheme : string;
  Host : string;
  Path : string
}.

Record resourceMatcher := {
  getBaseURL : Request -> URL;
  types : gmap string ResourceType;
  templates : list ResourceTemplate
}.

Definition newResourceMatcher (baseURL : Request -> URL) (ts : gmap string ResourceType)
    (tmpls : list ResourceTemplate) : resourceMatcher :=
  {| getBaseURL := baseURL; types := ts; templates := tmpls |}.

Definition slash : Ascii.ascii := Ascii.ascii_of_nat 47.

(** The pieces of a path between slashes, [cur] being the piece read so far. *)
Fixpoint splitPath (s cur : string) : list string :=
  match s with
  | EmptyString => [cur]
  | String c rest =>
      if Ascii.eqb c slash then cur :: splitPath rest ""
      else splitPath rest (cur +:+ String c EmptyString)
  end.

Definition pathSegments (s : string) : list string :=
  List.filter (fun seg => negb (String.eqb seg "")) (splitPath s "").

Fixpoint stripSegments (pre l : list string) : option (list string) :=
  match pre, l with
  | [], _ => Some l
  | a :: pre', b :: l' => if String.eqb a b then stripSegments pre' l' else None
  | _ :: _, [] => None
  end.

Fixpoint matchSegments (pat : list Segment) (segs : list string)
  : option (list (string * string)) :=
  match pat, segs with
  | [], [] => Some []
  | Lit s :: pat', seg :: segs' =>
      if String.eqb s seg then matchSegments pat' segs' else None
  | Var v :: pat', seg :: segs' =>
      match matchSegments pat' segs' with
      | Some binds => Some ((v, seg) :: binds)
      | None => None
      end
  | _, _ => None
  end.

Definition lookupVar (v : string) (binds : list (string * string)) : string :=
  match List.find (fun kv => String.eqb (fst kv) v) binds with
  | Some kv => snd kv
  | None => ""
  end.

Fixpoint substitute (parts : list Segment) (binds : list (string * string)) : string :=
  match parts with
  | [] => ""
  | Lit s :: rest => s +:+ substitute rest binds
  | Var v :: rest => lookupVar v binds +:+ substitute rest binds
  end.

(** The first template, in registration order, whose pattern matches. *)
Fixpoint findTemplate (tmpls : list ResourceTemplate) (segs : list string)
  : option (ResourceTemplate * list (string * string)) :=
  match tmpls with
  | [] => None
  | t :: rest =>
      match matchSegments (tmplPath t) segs with
      | Some binds => Some (t, binds)
      | None => findTemplate rest segs
      end
  end.

Definition zeroResourceType : ResourceType :=
  {| rtType := ""; IconUri := ""; ResourceScopes := [] |}.

(** Modelled from the spec: [resourceMatcher.match] is not among the sources.
    The request path, taken relative to the base URL, is tried against the
    templates one by one and the first that matches wins; its path variables
    are substituted into the template to build the resource's [Name], the
    [URI] is the concrete location, and the resource is stashed in the
    request's context. No match leaves the request as it is. The matcher is
    built from the base URL, the types and the templates alone, so the [ID]
    of a resource it produces is still empty. *)
Definition rm_match (m : resourceMatcher) (r : Request) : Request * option Resource :=
  let b := getBaseURL m r in
  match stripSegments (pathSegments (Path b)) (pathSegments (URLPath r)) with
  | None => (r, None)
  | Some rel =>
      match findTemplate (templates m) rel with
      | None => (r, None)
      | Some (t, binds) =>
          let resource :=
            {| resourceType := default zeroResourceType (types m !! tmplType t);
               ID := "";
               Name := substitute (tmplName t) binds;
               URI := Scheme b +:+ "://" +:+ Host b +:+ URLPath r |} in
          (setResource r resource, Some resource)
      end
  end.

(** ** The middleware *)

Inductive HttpClient :=
| DefaultClient
| CustomClient (name : string).

(** The [providers] field is the mutable part of the struct; it lives in
    [MState]. The resource store is the name-to-id table behind the
    [ResourceStore] interface. *)
Record middleware := {
  rm : resourceMatcher;
  getProviderInfo : Request -> ProviderInfo;
  resourceStore : gmap string string;
  client : HttpClient
}.

Record ResourceMiddlewareOptions := {
  GetBaseURL : Request -> URL;
  GetProviderInfo : Request -> ProviderInfo;
  ResourceStore : gmap string string;
  Types : gmap string ResourceType;
  ResourceTemplates : list ResourceTemplate;
  Client : option HttpClient
}.

Definition newMiddleware (opts : ResourceMiddlewareOptions) : middleware :=
  {| rm := newResourceMatcher (GetBaseURL opts) (Types opts) (ResourceTemplates opts);
     getProviderInfo := GetProviderInfo opts;
     resourceStore := ResourceStore opts;
     client := default DefaultClient (Client opts) |}.

Section Middleware.

Variable transport : list Event -> OutRequest -> NetResult.
Variable discoveryDocument : list Event -> string -> res UMADiscovery.

(** The call site hands the store and the client to [newBaseProvider] as
    well; the constructor of the provider file keeps the four fields below. *)
Definition getProvider (m : middleware) (r : Request) : M (Request * loc) :=
  let pinfo := getProviderInfo m r in
  let* cached := lookupProvider (Issuer pinfo) in
  match cached with
  | Some v => ret (setProvider r v, v)
  | None =>
      if String.eqb (Type_ pinfo) Keycloak then
        let* p := newKeycloakProvider (Issuer pinfo)
                    (newBaseProvider (Issuer pinfo) (ClientID pinfo)
                       (ClientSecret pinfo) (piKeySet pinfo)) in
        let* _ := cacheProvider (Issuer pinfo) p in
        let* _ := orPanic (DiscoverUMA discoveryDocument p) in
        ret (setProvider r p, p)
      else
        panic (ConfigurationError
                 ("unsupported provider type " +:+ quoted (Type_ pinfo)))
  end.

(** [next.ServeHTTP(w, r)]: the downstream handler is outside the
    middleware; reaching it is an event. *)
Definition next (r : Request) : M unit := emit (EvNext r).

(** The handler returned by [ResourceMiddleware(opts)(next)]. The resource
    in the request's context is the very object [RegisterResource] writes
    to, so the context is refreshed with the resource after the call. *)
Definition ServeHTTP (m : middleware) (r : Request) : M unit :=
  let '(r, resource) := rm_match (rm m) r in
  match resource with
  | Some resource =>
      let* (r, p) := getProvider m r in
      fun st =>
        match RegisterResource transport p resource st with
        | (Ok _, resource', st') => next (setResource r resource') st'
        | (Err e, _, st') => (Panic e, st')
        | (Panic e, _, st') => (Panic e, st')
        end
  | None => next r
  end.

(** Calls made one after another on one middleware instance, each running
    to its end (return or panic) before the following one starts. *)
Fixpoint runSequential {A} (f : Request -> M A) (rs : list Request) (st : MState)
  : MState :=
  match rs with
  | [] => st
  | r :: rest => runSequential f rest (snd (f r st))
  end.

End Middleware.

(** ** Counting events *)

Definition isConstruct (issuer : string) (ev : Event) : bool :=
  match ev with
  | EvConstruct i _ => String.eqb i issuer
  | _ => false
  end.

Definition isDiscover (issuer : string) (ev : Event) : bool :=
  match ev with
  | EvDiscover i _ => String.eqb i issuer
  | _ => false
  end.


Definition isNext (ev : Event) : bool :=
  match ev with
  | EvNext _ => true
  | _ => false
  end.

Definition count (f : Event -> bool) (tr : list Event) : nat :=
  length (List.filter f tr).

Definition constructions (issuer : string) (tr : list Event) : nat :=
  count (isConstruct issuer) tr.

Definition discoveries (issuer : string) (tr : list Event) : nat :=
  count (isDiscover issuer) tr.

(** ** The provider interface *)

Section Interface.

Variable transport : list Event -> OutRequest -> NetResult.
Variable discoveryDocument : list Event -> string -> res UMADiscovery.

(** The method set of the [Provider] interface ([KeySet] included), each
    method closed over its receiver. *)
Record Provider := {
  pVerifySignature : string -> M string;
  pDiscoverUMA : M unit;
  pDoRequest : OutRequest -> M Response;
  pRegisterResource : Resource -> MState -> res unit * Resource * MState;
  pRequestPermissionTicket : string -> list string -> M string;
  pRealm : M string;
  pAuthorizationServerURI : M string
}.

(** What a struct that embeds [*baseProvider] offers when it declares no
    method of the same name itself: the methods of the base, promoted. *)
Definition promoted (p : loc) : Provider :=
  {| pVerifySignature := VerifySignature p;
     pDiscoverUMA := DiscoverUMA discoveryDocument p;
     pDoRequest := DoRequest transport p;
     pRegisterResource := RegisterResource transport p;
     pRequestPermissionTicket := RequestPermissionTicket transport p;
     pRealm := Realm p;
     pAuthorizationServerURI := AuthorizationServerURI p |}.

(** A binding that declares its own [Realm] shadows the promoted one. *)
Definition withRealm (realm : M string) (P : Provider) : Provider :=
  {| pVerifySignature := pVerifySignature P;
     pDiscoverUMA := pDiscoverUMA P;
     pDoRequest := pDoRequest P;
     pRegisterResource := pRegisterResource P;
     pRequestPermissionTicket := pRequestPermissionTicket P;
     pRealm := realm;
     pAuthorizationServerURI := pAuthorizationServerURI P |}.

End Interface.

(** ** [getProvider] statement by statement

    The middleware holds no lock, so between two statements of one
    [getProvider] call another request may run statements of its own. A
    thread is a call of [getProvider] stopped before one of its statements. *)

Inductive Thread :=
| AtLookup (r : Request)
| AtSwitch (r : Request)
| AtInsert (r : Request) (p : loc)
| AtDiscover (r : Request) (p : loc)
| Returned (r : Request) (p : loc)
| Panicked (e : error).

Section Interleaving.

Variable discoveryDocument : list Event -> string -> res UMADiscovery.

Definition andThen {A} (c : M A) (k : A -> Thread) (st : MState) : Thread * MState :=
  match c st with
  | (Ok a, st') => (k a, st')
  | (Err e, st') => (Panicked e, st')
  | (Panic e, st') => (Panicked e, st')
  end.

Definition step (m : middleware) (t : Thread) (st : MState) : Thread * MState :=
  match t with
  | AtLookup r =>
      match providers st !! Issuer (getProviderInfo m r) with
      | Some v => (Returned (setProvider r v) v, st)
      | None => (AtSwitch r, st)
      end
  | AtSwitch r =>
      let pinfo := getProviderInfo m r in
      if String.eqb (Type_ pinfo) Keycloak then
        andThen (newKeycloakProvider (Issuer pinfo)
                   (newBaseProvider (Issuer pinfo) (ClientID pinfo)
                      (ClientSecret pinfo) (piKeySet pinfo)))
                (AtInsert r) st
      else
        (Panicked (ConfigurationError ("unsupported provider type " +:+ quoted (Type_ pinfo))), st)
  | AtInsert r p =>
      andThen (cacheProvider (Issuer (getProviderInfo m r)) p)
              (fun _ => AtDiscover r p) st
  | AtDiscover r p =>
      andThen (DiscoverUMA discoveryDocument p)
              (fun _ => Returned (setProvider r p) p) st
  | Returned r p => (Returned r p, st)
  | Panicked e => (Panicked e, st)
  end.

(** A schedule names, step after step, the thread that runs next. *)
Fixpoint runSchedule (m : middleware) (sched : list nat) (ts : list Thread)
    (st : MState) : list Thread * MState :=
  match sched with
  | [] => (ts, st)
  | i :: rest =>
      match ts !! i with
      | Some t =>
          let '(t', st') := step m t st in
          runSchedule m rest (<[i := t']> ts) st'
      | None => runSchedule m rest ts st
      end
  end.

Definition finished (t : Thread) : bool :=
  match t with
  | Returned _ _ | Panicked _ => true
  | _ => false
  end.

Definition outcome (t : Thread) : option (res (Request * loc)) :=
  match t with
  | Returned r p => Some (Ok (r, p))
  | Panicked e => Some (Panic e)
  | _ => None
  end.

End Interleaving.

(** ** The Keycloak client of [pkg/rp] *)

Module rp.

Record Credentials := {
  IDToken : string;
  AccessToken : string;
  RefreshToken : string
}.

Definition ClaimTokenFormat := string.
Definition AccessTokenFormat : ClaimTokenFormat :=
  "urn:ietf:params:oauth:token-type:jwt".
Definition IDTokenFormat : ClaimTokenFormat :=
  "https://openid.net/specs/openid-connect-core-1_0.html#IDToken".

Record RPTRequest := {
  Ticket : string;
  ClaimToken : string;
  ClaimTokenFormat_ : ClaimTokenFormat;
  RPT : string;
  Permission : list string;
  Audience : string;
  ResponseIncludeResourceName : bool;
  ResponsePermissionsLimit : Z;
  SubmitRequest : bool
}.

(** [tokenURL] is [kc.oidc.Endpoint().TokenURL]. *)
Record KeycloakClient := {
  tokenURL : string;
  clientID : string;
  clientSecret : string;
  kcClient : HttpClient
}.

Definition addString (key v : string) (vals : Values) : Values :=
  if String.eqb v "" then vals else <[key := [v]]> vals.

Definition addStrings (key : string) (vs : list string) (vals : Values) : Values :=
  match vs with
  | [] => vals
  | _ => <[key := vs]> vals
  end.

Definition addBool (key : string) (b : bool) (vals : Values) : Values :=
  if b then <[key := ["true"]]> vals else vals.

Definition addInt (key : string) (n : Z) (vals : Values) : Values :=
  if n =? 0 then vals else <[key := [pretty n]]> vals.

(** Modelled from the spec: [urlencode.ToValues] is not among the sources.
    Every parameter of the request that is provided becomes a form value;
    a parameter that is not provided is omitted, not sent empty. The key is
    the field's [url] tag ([rpt]) or, without a tag, the name of the grant
    parameter the field stands for. *)
Definition ToValues (request : RPTRequest) : res Values :=
  Ok (addString "ticket" (Ticket request)
     (addString "claim_token" (ClaimToken request)
     (addString "claim_token_format" (ClaimTokenFormat_ request)
     (addString "rpt" (RPT request)
     (addStrings "permission" (Permission request)
     (addString "audience" (Audience request)
     (addBool "response_include_resource_name" (ResponseIncludeResourceName request)
     (addInt "response_permissions_limit" (ResponsePermissionsLimit request)
     (addBool "submit_request" (SubmitRequest request) ∅))))))))).

(** [values.Set(key, value)] *)
Definition valuesSet (key value : string) (vals : Values) : Values :=
  <[key := [value]]> vals.

(** [r.Header.Set(key, value)] *)
Definition headerSet (key value : string) (r : OutRequest) : OutRequest :=
  {| oMethod := oMethod r; oURL := oURL r;
     oHeader := (key, value)
                :: List.filter (fun kv => negb (String.eqb (fst kv) key)) (oHeader r);
     oBody := oBody r |}.

(** Modelled from the spec: [httputil.DecodeJSONResponse] is not among the
    sources. A non-success status is a protocol error carrying status and
    body, a malformed body a decode error; the fields of [Credentials] are
    optional. *)
Definition DecodeJSONResponse (resp : Response) : res Credentials :=
  match ensure2XX resp with
  | Some err => Err err
  | None =>
      match respBody resp with
      | Some (JObj fields) =>
          match stringField "id_token" fields,
                stringField "access_token" fields,
                stringField "refresh_token" fields with
          | Ok i, Ok a, Ok r =>
              Ok {| IDToken := i; AccessToken := a; RefreshToken := r |}
          | _, _, _ => Err (DecodeError "cannot unmarshal into string field")
          end
      | Some JNull => Ok {| IDToken := ""; AccessToken := ""; RefreshToken := "" |}
      | Some _ => Err (DecodeError "cannot unmarshal into struct")
      | None => Err (DecodeError "invalid JSON")
      end
  end.

Definition umaTicketGrant : string := "urn:ietf:params:oauth:grant-type:uma-ticket".

Section Client.

Variable transport : list Event -> OutRequest -> NetResult.

(** Modelled from the spec: [httputil.PostFormUrlencoded] is not among the
    sources. A form-urlencoded POST of [values] to [url]; [modify], when
    given, adjusts the request before it is sent through the client. *)
Definition PostFormUrlencoded (c : HttpClient) (url : string)
    (modify : option (OutRequest -> OutRequest)) (values : Values) : M Response :=
  let req0 := {| oMethod := MethodPost; oURL := url;
                 oHeader := [("Content-Type", "application/x-www-form-urlencoded")];
                 oBody := BodyForm values |} in
  let req := match modify with Some f => f req0 | None => req0 end in
  fun st =>
    let st' := logEvent (EvToken req) st in
    match transport (trace st) req with
    | Reply resp => (Ok resp, st')
    | NetFail e => (Err e, st')
    end.

Definition RequestRPT (kc : KeycloakClient) (accessToken : string)
    (request : RPTRequest) : M string :=
  let* values := lift (ToValues request) in
  let values := valuesSet "grant_type" umaTicketGrant values in
  let* resp := PostFormUrlencoded (kcClient kc) (tokenURL kc)
                 (Some (headerSet "Authorization" ("Bearer " +:+ accessToken)))
                 values in
  let* tok := lift (DecodeJSONResponse resp) in
  ret (AccessToken tok).

End Client.

(** The form [RequestRPT] posts. *)
Definition rptForm (request : RPTRequest) : Values :=
  match ToValues request with
  | Ok values => valuesSet "grant_type" umaTicketGrant values
  | _ => ∅
  end.

Definition rptCall (kc : KeycloakClient) (accessToken : string)
    (request : RPTRequest) : OutRequest :=
  {| oMethod := "POST";
     oURL := tokenURL kc;
     oHeader := [("Authorization", "Bearer " +:+ accessToken);
                 ("Content-Type", "application/x-www-form-urlencoded")];
     oBody := BodyForm (rptForm request) |}.

End rp.

(** ** States and requests the statements refer to *)

(** The state after a successful first registration of [name] as [rid]. *)
Definition registered (p : loc) (kp : keycloakProvider) (name rid : string)
    (st : MState) : MState :=
  {| providers := providers st;
     heap := <[p := {| base := setRegistered (base kp)
                                 (<[name := rid]> (registeredResources (base kp))) |}]>
               (heap st);
     trace := trace st |}.

(** The request [RegisterResource] builds for a resource. *)
Definition registrationRequest (kp : keycloakProvider) (resource : Resource)
  : OutRequest :=
  {| oMethod := MethodPost;
     oURL := ResourceRegistrationEndpoint (bpUMADiscovery (base kp));
     oHeader := [("Content-Type", "application/json")];
     oBody := BodyResource resource |}.

(** The request [RequestPermissionTicket] builds for a resource ID and scopes. *)
Definition ticketRequest (kp : keycloakProvider) (resourceID : string)
    (scopes : list string) : OutRequest :=
  {| oMethod := MethodPost;
     oURL := PermissionEndpoint (bpUMADiscovery (base kp));
     oHeader := [("Content-Type", "application/json")];
     oBody := BodyPermissions
                [{| ResourceID := resourceID; prResourceScopes := scopes |}] |}.

Section Reference.

Variable transport : list Event -> OutRequest -> NetResult.
Variable discoveryDocument : list Event -> string -> res UMADiscovery.
Variable m : middleware.

(** The state right after the new provider is constructed and put in the
    cache, with [DiscoverUMA] entered. *)
Definition inserted (r : Request) (st : MState) : MState :=
  let pinfo := getProviderInfo m r in
  let p := length (heap st) in
  {| providers := <[Issuer pinfo := p]> (providers st);
     heap := heap st ++ [{| base := newBaseProvider (Issuer pinfo) (ClientID pinfo)
                                      (ClientSecret pinfo) (piKeySet pinfo) |}];
     trace := trace st ++ [EvConstruct (Issuer pinfo) p]
                       ++ [EvDiscover (Issuer pinfo) p] |}.

(** The same state once the discovery document [d] is stored. *)
Definition discovered (r : Request) (d : UMADiscovery) (st : MState) : MState :=
  let pinfo := getProviderInfo m r in
  let st1 := inserted r st in
  {| providers := providers st1;
     heap := <[length (heap st) :=
                 {| base := setDiscovery
                              (newBaseProvider (Issuer pinfo) (ClientID pinfo)
                                 (ClientSecret pinfo) (piKeySet pinfo)) d |}]>
               (heap st1);
     trace := trace st1 |}.

(** Every provider in the cache has gone through discovery: the document
    the authorization server returned for its issuer is stored in it. *)
Definition initialised (st : MState) : Prop :=
  forall issuer p,
    providers st !! issuer = Some p ->
    exists kp tr d,
      heap st !! p = Some kp /\
      discoveryDocument tr issuer = Ok d /\
      bpUMADiscovery (base kp) = d.

(** The three ways the work before the downstream handler can fail, for
    a request [r1] as the matcher returned it. *)
Definition constructionFails (r1 : Request) (st : MState) : Prop :=
  providers st !! Issuer (getProviderInfo m r1) = None /\
  String.eqb (Type_ (getProviderInfo m r1)) Keycloak = false.

Definition discoveryFails (r1 : Request) (st : MState) : Prop :=
  providers st !! Issuer (getProviderInfo m r1) = None /\
  String.eqb (Type_ (getProviderInfo m r1)) Keycloak = true /\
  exists e,
    discoveryDocument (trace (inserted r1 st)) (Issuer (getProviderInfo m r1)) = Err e.

Definition registrationFails (r1 : Request) (resource : Resource) (st : MState)
  : Prop :=
  exists r2 p st1 e resource' st2,
    getProvider discoveryDocument m r1 st = (Ok (r2, p), st1) /\
    RegisterResource transport p resource st1 = (Err e, resource', st2).

End Reference.

(** How many providers the cache holds for an issuer: one or none. *)
Definition cachedCount (st : MState) (issuer : string) : nat :=
  match providers st !! issuer with
  | Some _ => 1%nat
  | None => 0%nat
  end.

(** The trace and the cache agree: an issuer was constructed, and
    discovery was entered for it, exactly when it is in the cache. *)
Definition consistent (st : MState) : Prop :=
  forall issuer,
    constructions issuer (trace st) = cachedCount st issuer /\
    discoveries issuer (trace st) = cachedCount st issuer.

(** Events other than the dispatch to the downstream handler. *)
Definition quiet (evs : list Event) : Prop :=
  Forall (fun ev => isNext ev = false) evs.

(** ** A concrete deployment

    A middleware, requests and authorization-server behaviours on which the
    statements below are run. *)

Module Scenario.

Definition keys : KeySet := {| keyVerifySignature := fun jwt => Ok jwt |}.

Definition realmOf (r : Request) : string :=
  match List.find (fun kv => String.eqb (fst kv) "X-Realm") (reqHeader r) with
  | Some kv => snd kv
  | None => "test-realm"
  end.

Definition issuerFor (realm : string) : string :=
  "http://localhost:8080/realms/" +:+ realm.

Definition infoOf (ty : ProviderType) (r : Request) : ProviderInfo :=
  {| Issuer := issuerFor (realmOf r); Type_ := ty;
     ClientID := "test-client"; ClientSecret := "change-me"; piKeySet := keys |}.

Definition userType : ResourceType :=
  {| rtType := "https://www.example.com/rsrcs/user";
     IconUri := "https://www.example.com/rsrcs/user/icon.png";
     ResourceScopes := ["read"; "write"] |}.

Definition options (ty : ProviderType) : ResourceMiddlewareOptions :=
  {| GetBaseURL := fun _ => {| Scheme := "http"; Host := "localhost:8000";
                               Path := "/api" |};
     GetProviderInfo := infoOf ty;
     ResourceStore := ∅;
     Types := {[ "user" := userType ]};
     ResourceTemplates :=
       [ {| tmplType := "users"; tmplPath := [Lit "users"];
            tmplName := [Lit "Users"] |};
         {| tmplType := "user"; tmplPath := [Lit "users"; Var "id"];
            tmplName := [Lit "User "; Var "id"] |} ];
     Client := None |}.

Definition mw : middleware := newMiddleware (options Keycloak).
Definition mwUnsupported : middleware := newMiddleware (options "auth0").

Definition request (realm path : string) : Request :=
  {| reqMethod := "GET"; URLPath := path; reqHeader := [("X-Realm", realm)];
     ctxProvider := None; ctxResource := None |}.

Definition userRequest : Request := request "test-realm" "/api/users/42".
Definition otherRealmRequest : Request := request "other-realm" "/api/users/7".
Definition unrelatedRequest : Request := request "test-realm" "/api/unrelated".

Definition user42 : Resource :=
  {| resourceType := userType; ID := ""; Name := "User 42";
     URI := "http://localhost:8000/api/users/42" |}.

Definition discoveryDown : list Event -> string -> res UMADiscovery :=
  fun _ _ => Err (DiscoveryError "connection refused").

Definition documentOf (issuer : string) : UMADiscovery :=
  {| ResourceRegistrationEndpoint := issuer +:+ "/authz/protection/resource_set";
     PermissionEndpoint := issuer +:+ "/authz/protection/permission";
     TokenEndpoint := issuer +:+ "/protocol/openid-connect/token" |}.

Definition discoveryUp : list Event -> string -> res UMADiscovery :=
  fun _ issuer => Ok (documentOf issuer).

Definition answer (status : Z) (body : JSON) : list Event -> OutRequest -> NetResult :=
  fun _ _ => Reply {| StatusCode := status; respBody := Some body |}.

Definition created : list Event -> OutRequest -> NetResult :=
  answer 201 (JObj [("_id", JStr "rid-1")]).
Definition forbidden : list Event -> OutRequest -> NetResult :=
  answer 403 (JObj [("error", JStr "access_denied")]).
Definition tokenIssued : list Event -> OutRequest -> NetResult :=
  answer 200 (JObj [("access_token", JStr "rpt-2"); ("token_type", JStr "Bearer")]).

(** The middleware after one request for the test realm went through
    discovery. *)
Definition ready : MState := snd (getProvider discoveryUp mw userRequest initState).

Definition readyProvider : keycloakProvider :=
  {| base := setDiscovery
               (newBaseProvider (issuerFor "test-realm") "test-client" "change-me" keys)
               (documentOf (issuerFor "test-realm")) |}.

Definition kc : rp.KeycloakClient :=
  {| rp.tokenURL := TokenEndpoint (documentOf (issuerFor "test-realm"));
     rp.clientID := "test-client"; rp.clientSecret := "change-me";
     rp.kcClient := DefaultClient |}.

Definition incremental : rp.RPTRequest :=
  {| rp.Ticket := ""; rp.ClaimToken := ""; rp.ClaimTokenFormat_ := "";
     rp.RPT := "rpt-1"; rp.Permission := ["abc#read"]; rp.Audience := "";
     rp.ResponseIncludeResourceName := false; rp.ResponsePermissionsLimit := 0;
     rp.SubmitRequest := false |}.

End Scenario.

(** ** The in-memory resource store of the example server *)

Module mockResourceStore.

(** [mockResourceStore] is [map[string]string]; [Set_] is the method [Set]. *)
Definition Set_ (s : gmap string string) (name id : string) : gmap string string :=
  <[name := id]> s.

Definition Get (s : gmap string string) (name : string) : string :=
  match s !! name with
  | Some id => id
  | None => ""
  end.

End mockResourceStore.

(** ** The client grants of [pkg/rp] *)

Module rpGrants.
Import rp.

Section Grants.

Variable transport : list Event -> OutRequest -> NetResult.

(** [oidc.NewProvider] of go-oidc: OIDC discovery for an issuer through a
    client, giving the token endpoint or an error. *)
Variable oidcNewProvider : HttpClient -> string -> res string.

(** [httputil.ClientCreds] and its decoding from a response are declared in
    [pkg/httputil]. *)
Variable ClientCreds : Type.
Variable decodeClientCreds : Response -> res ClientCreds.

Definition NewKeycloakClient (issuer clientID clientSecret : string) (client : HttpClient)
  : res KeycloakClient :=
  match oidcNewProvider client issuer with
  | Ok url => Ok {| tokenURL := url; clientID := clientID;
                    clientSecret := clientSecret; kcClient := client |}
  | Err e => Err e
  | Panic e => Panic e
  end.

Definition Authenticate (kc : KeycloakClient) : M ClientCreds :=
  let* resp := PostFormUrlencoded transport (kcClient kc) (tokenURL kc) None
                 {[ "grant_type" := ["client_credentials"];
                    "client_id" := [clientID kc];
                    "client_secret" := [clientSecret kc] ]} in
  lift (decodeClientCreds resp).

Definition AuthenticateUserWithPassword (kc : KeycloakClient) (username password : string)
  : M Credentials :=
  let params : Values :=
    {[ "grant_type" := ["password"];
       "client_id" := [clientID kc];
       "client_secret" := [clientSecret kc];
       "scope" := ["openid"];
       "username" := [username];
       "password" := [password] ]} in
  let* resp := PostFormUrlencoded transport (kcClient kc) (tokenURL kc) None params in
  let* tok := lift (DecodeJSONResponse resp) in
  ret tok.

Definition RefreshCredentials (kc : KeycloakClient) (creds : Credentials)
  : M Credentials :=
  let params : Values :=
    {[ "grant_type" := ["refresh_token"];
       "client_id" := [clientID kc];
       "client_secret" := [clientSecret kc];
       "refresh_token" := [RefreshToken creds] ]} in
  let* resp := PostFormUrlencoded transport (kcClient kc) (tokenURL kc) None params in
  let* tok := lift (DecodeJSONResponse resp) in
  ret tok.

End Grants.

(** The parameters of the three client grants. *)
Definition clientCredentialsForm (kc : KeycloakClient) : Values :=
  {[ "grant_type" := ["client_credentials"];
     "client_id" := [clientID kc];
     "client_secret" := [clientSecret kc] ]}.

Definition refreshForm (kc : KeycloakClient) (token : string) : Values :=
  {[ "grant_type" := ["refresh_token"];
     "client_id" := [clientID kc];
     "client_secret" := [clientSecret kc];
     "refresh_token" := [token] ]}.

Definition passwordForm (kc : KeycloakClient) (username password : string) : Values :=
  {[ "grant_type" := ["password"];
     "client_id" := [clientID kc];
     "client_secret" := [clientSecret kc];
     "scope" := ["openid"];
     "username" := [username];
     "password" := [password] ]}.

(** A form-urlencoded POST with no header beyond the content type. *)
Definition formPost (url : string) (values : Values) : OutRequest :=
  {| oMethod := MethodPost; oURL := url;
     oHeader := [("Content-Type", "application/x-www-form-urlencoded")];
     oBody := BodyForm values |}.

End rpGrants.

(** ** Shape of the states the handler produces *)

(** Every issuer in the cache is bound to a live provider, and that
    provider was built for this very issuer. *)
Definition wellFormed (st : MState) : Prop :=
  forall issuer p,
    providers st !! issuer = Some p ->
    exists kp, heap st !! p = Some kp /\ bpIssuer (base kp) = issuer.

(** The fields of a provider that registration does not write. *)
Definition sameIdentity (a b : baseProvider) : Prop :=
  bpIssuer a = bpIssuer b /\
  bpClientID a = bpClientID b /\
  bpClientSecret a = bpClientSecret b /\
  bpKeySet a = bpKeySet b /\
  bpUMADiscovery a = bpUMADiscovery b.

(** ** More of the concrete deployment *)

Module MoreScenario.
Import Scenario.

Definition store : gmap string string :=
  mockResourceStore.Set_ ∅ "Users" "users-id".

Definition unreachable : list Event -> OutRequest -> NetResult :=
  fun _ _ => NetFail (TransportError "connection refused").

Definition user7 : Resource :=
  {| resourceType := userType; ID := ""; Name := "User 7";
     URI := "http://localhost:8000/api/users/7" |}.

(** The ready middleware after "User 42" was registered. *)
Definition registeredState : MState :=
  snd (RegisterResource created 0%nat user42 ready).

Definition kcOther : rp.KeycloakClient :=
  {| rp.tokenURL := rp.tokenURL kc;
     rp.clientID := "other-client"; rp.clientSecret := "other-secret";
     rp.kcClient := DefaultClient |}.

Definition oldCredentials : rp.Credentials :=
  {| rp.IDToken := "id-1"; rp.AccessToken := "at-1"; rp.RefreshToken := "rt-1" |}.

Definition strippedCredentials : rp.Credentials :=
  {| rp.IDToken := ""; rp.AccessToken := ""; rp.RefreshToken := "rt-1" |}.

Definition issuedCredentials : rp.Credentials :=
  {| rp.IDToken := ""; rp.AccessToken := "at-1"; rp.RefreshToken := "rt-1" |}.

Definition credentialsBody : JSON :=
  JObj [("access_token", JStr "at-1"); ("refresh_token", JStr "rt-1")].

Definition credentialsIssued : list Event -> OutRequest -> NetResult :=
  answer 200 credentialsBody.

Definition oidcUp : HttpClient -> string -> res string :=
  fun _ issuer => Ok (issuer +:+ "/protocol/openid-connect/token").

End MoreScenario.

(** * Properties *)

(** ** Registration and permission tickets *)

Section EngineFacts.

Variable transport : list Event -> OutRequest -> NetResult.

Lemma getP_valid st p kp :
  heap st !! p = Some kp -> getP p st = (Ok (base kp), st).
Proof. intros H. unfold getP. by rewrite H. Qed.

(** What [RegisterResource] does when the name is not in the cache. *)
Lemma RegisterResource_miss st p kp resource :
  heap st !! p = Some kp ->
  registeredResources (base kp) !! Name resource = None ->
  let req := registrationRequest kp resource in
  let st' := logEvent (EvCall p req) st in
  RegisterResource transport p resource st =
    match transport (trace st) req with
    | NetFail e => (Err e, resource, st')
    | Reply resp =>
        match ensure2XX resp with
        | Some err => (Err err, resource, st')
        | None =>
            match decodeJSONResponse resp "_id" with
            | Ok rid => (Ok tt, setID resource rid,
                         registered p kp (Name resource) rid st')
            | Err e => (Err e, resource, st')
            | Panic e => (Panic e, resource, st')
            end
        end
    end.
Proof.
  intros Hp Hmiss req st'.
  unfold RegisterResource, registerResource, registerCall, bind, lift, jsonRequest.
  rewrite (getP_valid _ _ _ Hp), Hmiss, (getP_valid _ _ _ Hp).
  unfold DoRequest. subst req st'. unfold registrationRequest.
  destruct (transport _ _) as [resp|e]; [|done].
  destruct (ensure2XX resp) as [err|]; [done|].
  destruct (decodeJSONResponse resp "_id") as [rid|e|e]; try done.
  unfold modP, ret. simpl. rewrite Hp. done.
Qed.

(** What [RegisterResource] does when the name is in the cache. *)
Lemma RegisterResource_hit st p kp resource rid :
  heap st !! p = Some kp ->
  registeredResources (base kp) !! Name resource = Some rid ->
  RegisterResource transport p resource st = (Ok tt, setID resource rid, st).
Proof.
  intros Hp Hhit.
  unfold RegisterResource, registerResource, bind.
  by rewrite (getP_valid _ _ _ Hp), Hhit.
Qed.




(** What [RequestPermissionTicket] does, answer by answer. *)
Lemma RequestPermissionTicket_run st p kp resourceID scopes :
  heap st !! p = Some kp ->
  let req := ticketRequest kp resourceID scopes in
  RequestPermissionTicket transport p resourceID scopes st =
    (match transport (trace st) req with
     | NetFail e => Err e
     | Reply resp =>
         match ensure2XX resp with
         | Some err => Err err
         | None => decodeJSONResponse resp "ticket"
         end
     end, logEvent (EvCall p req) st).
Proof.
  intros Hp req.
  unfold RequestPermissionTicket, bind, lift, jsonRequest.
  rewrite (getP_valid _ _ _ Hp). unfold DoRequest. subst req.
  unfold ticketRequest.
  destruct (transport _ _) as [resp|e]; [|done].
  by destruct (ensure2XX resp).
Qed.

Lemma ensure2XX_fail resp :
  is2XX (StatusCode resp) = false ->
  ensure2XX resp = Some (ProtocolError (StatusCode resp) (respBody resp)).
Proof. intros H. unfold ensure2XX. by rewrite H. Qed.


(** C3. A non-2XX answer to the registration call or to the
    permission-ticket call makes the operation return an error that carries
    the upstream status (and body); the resource handed in comes back as it
    was, and the provider heap, hence every [registeredResources] cache,
    and the provider cache are what they were before the call. *)
Theorem non2XX_leaves_state_alone st p kp :
  heap st !! p = Some kp ->
  (forall resource resp,
      registeredResources (base kp) !! Name resource = None ->
      transport (trace st) (registrationRequest kp resource) = Reply resp ->
      is2XX (StatusCode resp) = false ->
      exists st',
        RegisterResource transport p resource st
          = (Err (ProtocolError (StatusCode resp) (respBody resp)), resource, st')
        /\ heap st' = heap st /\ providers st' = providers st)
  /\
  (forall resourceID scopes resp,
      transport (trace st) (ticketRequest kp resourceID scopes) = Reply resp ->
      is2XX (StatusCode resp) = false ->
      exists st',
        RequestPermissionTicket transport p resourceID scopes st
          = (Err (ProtocolError (StatusCode resp) (respBody resp)), st')
        /\ heap st' = heap st /\ providers st' = providers st).
Proof.
  intros Hp. split.
  - intros resource resp Hmiss Hnet Hstatus.
    pose proof (RegisterResource_miss st p kp resource Hp Hmiss) as Hchar.
    simpl in Hchar. rewrite Hnet, (ensure2XX_fail _ Hstatus) in Hchar.
    eexists. split; [exact Hchar|done].
  - intros resourceID scopes resp Hnet Hstatus.
    pose proof (RequestPermissionTicket_run st p kp resourceID scopes Hp) as Hchar.
    simpl in Hchar. rewrite Hnet, (ensure2XX_fail _ Hstatus) in Hchar.
    eexists. split; [exact Hchar|done].
Qed.


End EngineFacts.

(** ** The provider cache of the middleware *)

Section CacheFacts.

Variable discoveryDocument : list Event -> string -> res UMADiscovery.
Variable m : middleware.

Local Abbreviation getProvider' := (getProvider discoveryDocument m).
Local Abbreviation issuerOf r := (Issuer (getProviderInfo m r)).

(** [DiscoverUMA] on the provider allocated last. *)
Lemma DiscoverUMA_fresh (P : gmap string loc) (h : list keycloakProvider)
    (b : baseProvider) (tr : list Event) :
  let st1 := {| providers := P; heap := h ++ [{| base := b |}]; trace := tr |} in
  let tr' := tr ++ [EvDiscover (bpIssuer b) (length h)] in
  DiscoverUMA discoveryDocument (length h) st1 =
    match discoveryDocument tr' (bpIssuer b) with
    | Ok d => (Ok tt, {| providers := P;
                         heap := <[length h := {| base := setDiscovery b d |}]>
                                   (h ++ [{| base := b |}]);
                         trace := tr' |})
    | Err e => (Err e, {| providers := P; heap := h ++ [{| base := b |}];
                          trace := tr' |})
    | Panic e => (Panic e, {| providers := P; heap := h ++ [{| base := b |}];
                            trace := tr' |})
    end.
Proof.
  simpl. unfold DiscoverUMA, bind, getP, emit, modP, logEvent. simpl.
  rewrite !lookup_app_r, !Nat.sub_diag by done. simpl.
  destruct (discoveryDocument _ _) as [d|e|e]; [|done|done].
  rewrite lookup_app_r, Nat.sub_diag by done. done.
Qed.

Lemma getProvider_hit r st v :
  providers st !! issuerOf r = Some v ->
  getProvider' r st = (Ok (setProvider r v, v), st).
Proof.
  intros H. unfold getProvider, bind, lookupProvider. by rewrite H.
Qed.

Lemma getProvider_unsupported r st :
  providers st !! issuerOf r = None ->
  String.eqb (Type_ (getProviderInfo m r)) Keycloak = false ->
  getProvider' r st
    = (Panic (ConfigurationError
                ("unsupported provider type " +:+ quoted (Type_ (getProviderInfo m r)))), st).
Proof.
  intros H Ht. unfold getProvider, bind, lookupProvider. by rewrite H, Ht.
Qed.

Lemma getProvider_miss r st :
  providers st !! issuerOf r = None ->
  String.eqb (Type_ (getProviderInfo m r)) Keycloak = true ->
  getProvider' r st =
    match discoveryDocument (trace (inserted m r st)) (issuerOf r) with
    | Ok d => (Ok (setProvider r (length (heap st)), length (heap st)),
               discovered m r d st)
    | Err e => (Panic e, inserted m r st)
    | Panic e => (Panic e, inserted m r st)
    end.
Proof.
  intros H Ht.
  unfold getProvider, bind, lookupProvider. rewrite H, Ht.
  unfold newKeycloakProvider, cacheProvider, orPanic, DiscoverUMA, bind, getP,
    emit, modP, logEvent, inserted, discovered.
  simpl. rewrite !lookup_app_r, !Nat.sub_diag by done. simpl.
  rewrite <- !app_assoc. simpl.
  destruct (discoveryDocument _ _) as [d|e|e]; [|done|done].
  rewrite lookup_app_r, Nat.sub_diag by done. done.
Qed.

Lemma count_app f (a b : list Event) :
  count f (a ++ b) = (count f a + count f b)%nat.
Proof. unfold count. by rewrite List.filter_app, length_app. Qed.

Lemma consistent_init : consistent initState.
Proof. intros issuer. by split. Qed.

Lemma inserted_counts r st issuer :
  providers st !! issuerOf r = None ->
  consistent st ->
  constructions issuer (trace (inserted m r st)) = cachedCount (inserted m r st) issuer /\
  discoveries issuer (trace (inserted m r st)) = cachedCount (inserted m r st) issuer.
Proof.
  intros Hmiss Hc. destruct (Hc issuer) as [Hcon Hdis].
  unfold constructions, discoveries, cachedCount, inserted in *.
  cbn [trace providers]. rewrite !count_app, Hcon, Hdis.
  unfold count. cbn [List.filter isConstruct isDiscover].
  rewrite lookup_insert.
  destruct (String.eqb_spec (issuerOf r) issuer) as [<-|Hne].
  - rewrite decide_True by done. rewrite Hmiss. done.
  - rewrite decide_False by done. simpl. split; lia.
Qed.

Lemma getProvider_cases r st :
  let st' := snd (getProvider' r st) in
  st' = st \/
  (providers st !! issuerOf r = None /\
   String.eqb (Type_ (getProviderInfo m r)) Keycloak = true /\
   providers st' = providers (inserted m r st) /\
   trace st' = trace (inserted m r st)).
Proof.
  simpl.
  destruct (providers st !! issuerOf r) as [v|] eqn:Hlook.
  { left. by rewrite (getProvider_hit r st v). }
  destruct (String.eqb (Type_ (getProviderInfo m r)) Keycloak) eqn:Ht.
  - right. rewrite (getProvider_miss r st Hlook Ht).
    by destruct (discoveryDocument _ _).
  - left. by rewrite (getProvider_unsupported r st Hlook Ht).
Qed.

Lemma consistent_getProvider r st :
  consistent st -> consistent (snd (getProvider' r st)).
Proof.
  intros Hc.
  destruct (getProvider_cases r st) as [->|(Hmiss & _ & Hp & Htr)]; [done|].
  intros issuer. unfold cachedCount. rewrite Hp, Htr.
  by apply inserted_counts.
Qed.

Lemma consistent_run rs st :
  consistent st -> consistent (runSequential getProvider' rs st).
Proof.
  revert st. induction rs as [|r rs IH]; intros st Hc; [done|].
  simpl. apply IH. by apply consistent_getProvider.
Qed.




Lemma cached_after_getProvider r st issuer :
  String.eqb (Type_ (getProviderInfo m r)) Keycloak = true ->
  is_Some (providers (snd (getProvider' r st)) !! issuer)
  <-> is_Some (providers st !! issuer) \/ issuer = issuerOf r.
Proof.
  intros Ht.
  destruct (providers st !! issuerOf r) as [v|] eqn:Hlook.
  - rewrite (getProvider_hit r st v Hlook). simpl. split; [by left|].
    intros [H| ->]; [done|]. by rewrite Hlook.
  - rewrite (getProvider_miss r st Hlook Ht).
    assert (Hp : forall o st', providers st' = providers (inserted m r st) ->
              is_Some (providers (snd (o : res (Request * loc), st')) !! issuer)
              <-> is_Some (providers st !! issuer) \/ issuer = issuerOf r).
    { intros o st' Hp. cbn [snd]. rewrite Hp. unfold inserted. cbn [providers].
      rewrite lookup_insert. case_decide as Heq.
      - split; [by right|]. by eexists.
      - split; [by left|]. intros [H|H]; [done|]. by destruct Heq. }
    destruct (discoveryDocument _ _); by apply Hp.
Qed.

Lemma cached_after_run rs st issuer :
  (forall r, r ∈ rs -> String.eqb (Type_ (getProviderInfo m r)) Keycloak = true) ->
  is_Some (providers (runSequential getProvider' rs st) !! issuer)
  <-> is_Some (providers st !! issuer) \/ issuer ∈ (fun r => issuerOf r) <$> rs.
Proof.
  revert st. induction rs as [|r rs IH]; intros st Hall.
  - simpl. split; [by left|]. intros [H|H]; [done|]. by apply elem_of_nil in H.
  - cbn [runSequential]. rewrite IH by (intros; apply Hall; by right).
    rewrite cached_after_getProvider by (apply Hall; by left).
    rewrite fmap_cons, elem_of_cons. tauto.
Qed.

Lemma initialised_getProvider r st :
  (forall tr issuer, exists d, discoveryDocument tr issuer = Ok d) ->
  initialised discoveryDocument st ->
  initialised discoveryDocument (snd (getProvider' r st)).
Proof.
  intros Hup Hinit.
  destruct (providers st !! issuerOf r) as [v|] eqn:Hlook.
  { by rewrite (getProvider_hit r st v). }
  destruct (String.eqb (Type_ (getProviderInfo m r)) Keycloak) eqn:Ht;
    [|by rewrite (getProvider_unsupported r st Hlook Ht)].
  rewrite (getProvider_miss r st Hlook Ht).
  destruct (Hup (trace (inserted m r st)) (issuerOf r)) as [d Hd]. rewrite Hd.
  intros issuer p. unfold discovered, inserted. cbn [snd providers heap].
  rewrite lookup_insert. case_decide as Heq.
  - intros [= <-]. subst issuer. do 2 eexists. exists d.
    split; [apply list_lookup_insert_eq; rewrite length_app; simpl; lia|].
    split; [exact Hd|reflexivity].
  - intros Hp. destruct (Hinit issuer p Hp) as (kp & tr & d' & Hkp & Hd' & Hdoc).
    exists kp, tr, d'. split; [|done].
    pose proof (lookup_lt_Some _ _ _ Hkp) as Hlt.
    rewrite list_lookup_insert_ne by lia. by rewrite lookup_app_l.
Qed.

Lemma initialised_run rs st :
  (forall tr issuer, exists d, discoveryDocument tr issuer = Ok d) ->
  initialised discoveryDocument st ->
  initialised discoveryDocument (runSequential getProvider' rs st).
Proof.
  intros Hup. revert st. induction rs as [|r rs IH]; intros st Hinit; [done|].
  simpl. apply IH. by apply initialised_getProvider.
Qed.

(** C9, as the code has it. The middleware takes no lock; when the calls of
    [getProvider] run one after another, each to its end, every request
    names a supported provider type and every discovery succeeds, the K
    distinct issuers among the requests get exactly K constructions and K
    discovery calls in all (one of each for an issuer that occurs, none for
    any other), and every entry of the cache is a provider whose discovery
    has completed. *)
Theorem sequential_one_discovery_per_issuer (rs : list Request) :
  (forall r, r ∈ rs -> String.eqb (Type_ (getProviderInfo m r)) Keycloak = true) ->
  (forall tr issuer, exists d, discoveryDocument tr issuer = Ok d) ->
  let st := runSequential getProvider' rs initState in
  (forall issuer,
      let k := if bool_decide (issuer ∈ (fun r => issuerOf r) <$> rs)
               then 1%nat else 0%nat in
      constructions issuer (trace st) = k /\ discoveries issuer (trace st) = k)
  /\ initialised discoveryDocument st.
Proof.
  intros Hall Hup. simpl. split.
  - intros issuer.
    destruct (consistent_run rs initState consistent_init issuer) as [-> ->].
    pose proof (cached_after_run rs initState issuer Hall) as Hiff.
    unfold cachedCount.
    destruct (providers _ !! issuer) as [v|] eqn:Hlook.
    + rewrite bool_decide_eq_true_2; [done|].
      destruct Hiff as [Hiff _]. destruct Hiff as [H|H]; [by eexists| |done].
      simpl in H. rewrite lookup_empty in H. by destruct H.
    + rewrite bool_decide_eq_false_2; [done|].
      intros Hin. destruct Hiff as [_ Hiff].
      destruct Hiff as [? H]; [by right|]. congruence.
  - apply initialised_run; [done|]. intros issuer p Hp.
    simpl in Hp. by rewrite lookup_empty in Hp.
Qed.

End CacheFacts.

(** ** The request handler *)

Section HandlerFacts.

Variable transport : list Event -> OutRequest -> NetResult.
Variable discoveryDocument : list Event -> string -> res UMADiscovery.
Variable m : middleware.

Local Abbreviation issuerOf r := (Issuer (getProviderInfo m r)).

Lemma rm_match_none (rmm : resourceMatcher) r :
  snd (rm_match rmm r) = None -> rm_match rmm r = (r, None).
Proof.
  unfold rm_match.
  destruct (stripSegments _ _) as [rel|]; [|done].
  destruct (findTemplate _ _) as [[t binds]|]; [|done].
  discriminate.
Qed.

(** C7. When the matcher yields no resource for the request, the handler
    resolves no provider and registers nothing: the provider cache and the
    provider heap stay as they are, the only event is the dispatch to the
    downstream handler, and the request dispatched is the inbound one. *)
Theorem no_match_passes_through r st :
  snd (rm_match (rm m) r) = None ->
  ServeHTTP transport discoveryDocument m r st = (Ok tt, logEvent (EvNext r) st).
Proof.
  intros Hnone. unfold ServeHTTP. by rewrite (rm_match_none _ _ Hnone).
Qed.

Lemma getProvider_quiet r st :
  exists evs,
    trace (snd (getProvider discoveryDocument m r st)) = trace st ++ evs /\ quiet evs.
Proof.
  destruct (getProvider_cases discoveryDocument m r st) as [Heq|(_ & _ & _ & Htr)].
  - exists []. simpl in Heq. rewrite Heq, app_nil_r. split; [done|constructor].
  - eexists. split; [exact Htr|]. by repeat constructor.
Qed.

Lemma RegisterResource_quiet p resource st :
  exists evs,
    trace (snd (RegisterResource transport p resource st)) = trace st ++ evs
    /\ quiet evs.
Proof.
  destruct (heap st !! p) as [kp|] eqn:Hp.
  - destruct (registeredResources (base kp) !! Name resource) as [rid|] eqn:Hreg.
    + rewrite (RegisterResource_hit transport st p kp resource rid Hp Hreg).
      exists []. rewrite app_nil_r. split; [done|constructor].
    + rewrite (RegisterResource_miss transport st p kp resource Hp Hreg).
      exists [EvCall p (registrationRequest kp resource)].
      split; [|by repeat constructor].
      destruct (transport _ _) as [resp|e]; [|done].
      destruct (ensure2XX resp); [done|].
      by destruct (decodeJSONResponse resp "_id").
  - exists []. unfold RegisterResource, registerResource, bind, getP.
    rewrite Hp. rewrite app_nil_r. split; [done|constructor].
Qed.

(** C4. When the matcher produced a resource and provider construction,
    discovery or [RegisterResource] fails, the handler ends in a panic and
    none of the events of the request is a dispatch to the downstream
    handler. *)
Theorem setup_failure_aborts r st r1 resource :
  rm_match (rm m) r = (r1, Some resource) ->
  constructionFails m r1 st
  \/ discoveryFails discoveryDocument m r1 st
  \/ registrationFails transport discoveryDocument m r1 resource st ->
  exists e st' evs,
    ServeHTTP transport discoveryDocument m r st = (Panic e, st')
    /\ trace st' = trace st ++ evs
    /\ quiet evs.
Proof.
  intros Hmatch Hfail. unfold ServeHTTP. rewrite Hmatch. unfold bind.
  destruct Hfail as [[Hmiss Ht]|[(Hmiss & Ht & e & Hd)|Hreg]].
  - rewrite (getProvider_unsupported _ _ _ _ Hmiss Ht).
    do 2 eexists. exists []. rewrite app_nil_r.
    split; [reflexivity|]. split; [done|constructor].
  - rewrite (getProvider_miss _ _ _ _ Hmiss Ht), Hd.
    do 3 eexists. split; [reflexivity|]. split; [reflexivity|].
    by repeat constructor.
  - destruct Hreg as (r2 & p & st1 & e & resource' & st2 & Hget & Hreg).
    destruct (getProvider_quiet r1 st) as (evs1 & Htr1 & Hq1).
    destruct (RegisterResource_quiet p resource st1) as (evs2 & Htr2 & Hq2).
    rewrite Hget in Htr1 |- *. rewrite Hreg in Htr2 |- *. simpl in Htr1, Htr2.
    exists e, st2, (evs1 ++ evs2). split; [done|]. split.
    + by rewrite Htr2, Htr1, app_assoc.
    + by apply Forall_app.
Qed.


(** Run alone, the four statements of a thread are [getProvider]. *)
Lemma steps_are_getProvider r st :
  exists t,
    runSchedule discoveryDocument m [0; 0; 0; 0]%nat [AtLookup r] st
      = ([t], snd (getProvider discoveryDocument m r st))
    /\ outcome t = Some (fst (getProvider discoveryDocument m r st)).
Proof.
  destruct (providers st !! issuerOf r) as [v|] eqn:Hlook.
  { rewrite (getProvider_hit _ _ _ _ _ Hlook).
    exists (Returned (setProvider r v) v). simpl. by rewrite Hlook. }
  destruct (String.eqb (Type_ (getProviderInfo m r)) Keycloak) eqn:Ht.
  - rewrite (getProvider_miss _ _ _ _ Hlook Ht).
    cbn [runSchedule lookup list_lookup step]. rewrite Hlook.
    cbn [runSchedule lookup list_lookup step insert list_insert]. rewrite Ht.
    repeat (progress (cbv [andThen newKeycloakProvider cacheProvider];
              cbn [runSchedule lookup list_lookup step insert list_insert
                   heap providers trace])).
    rewrite DiscoverUMA_fresh.
    cbn [bpIssuer newBaseProvider]. unfold inserted, discovered.
    cbn [heap providers trace]. rewrite <- !app_assoc.
    destruct (discoveryDocument _ _) as [d|e|e]; by eexists.
  - rewrite (getProvider_unsupported _ _ _ _ Hlook Ht).
    eexists. simpl. rewrite Hlook. simpl. rewrite Ht. done.
Qed.

End HandlerFacts.

(** ** The provider interface and [Realm] *)

Section InterfaceFacts.

Variable transport : list Event -> OutRequest -> NetResult.
Variable discoveryDocument : list Event -> string -> res UMADiscovery.

(** C10. [Realm] of the base provider panics whatever the receiver and the
    state, and so does the [Realm] of the [Provider] interface for a
    binding that only embeds the base; it returns normally only through a
    binding that declares a [Realm] of its own. *)
Theorem Realm_unimplemented (p : loc) (st : MState) :
  Realm p st = (Panic (PanicValue "Realm unimplemented"), st)
  /\ pRealm (promoted transport discoveryDocument p) st
     = (Panic (PanicValue "Realm unimplemented"), st)
  /\ (forall realm : string,
        pRealm (withRealm (ret realm) (promoted transport discoveryDocument p)) st
        = (Ok realm, st)).
Proof. by repeat split. Qed.

End InterfaceFacts.

(** ** The UMA-ticket grant *)

Module rpFacts.
Import rp.

Lemma addString_other k k' v (vals : Values) :
  k <> k' -> addString k v vals !! k' = vals !! k'.
Proof.
  intros Hne. unfold addString. destruct (String.eqb v ""); [done|].
  by rewrite lookup_insert_ne.
Qed.

Lemma addString_same k v (vals : Values) :
  addString k v vals !! k = if String.eqb v "" then vals !! k else Some [v].
Proof.
  unfold addString. destruct (String.eqb v ""); [done|].
  by rewrite lookup_insert_eq.
Qed.

Lemma addStrings_other k k' vs (vals : Values) :
  k <> k' -> addStrings k vs vals !! k' = vals !! k'.
Proof.
  intros Hne. unfold addStrings. destruct vs; [done|].
  by rewrite lookup_insert_ne.
Qed.

Lemma addStrings_same k vs (vals : Values) :
  addStrings k vs vals !! k = match vs with [] => vals !! k | _ => Some vs end.
Proof.
  unfold addStrings. destruct vs; [done|]. by rewrite lookup_insert_eq.
Qed.

Lemma addBool_other k k' b (vals : Values) :
  k <> k' -> addBool k b vals !! k' = vals !! k'.
Proof.
  intros Hne. unfold addBool. destruct b; [|done]. by rewrite lookup_insert_ne.
Qed.

Lemma addBool_same k b (vals : Values) :
  addBool k b vals !! k = if b then Some ["true"] else vals !! k.
Proof. unfold addBool. destruct b; [|done]. by rewrite lookup_insert_eq. Qed.

Lemma addInt_other k k' n (vals : Values) :
  k <> k' -> addInt k n vals !! k' = vals !! k'.
Proof.
  intros Hne. unfold addInt. destruct (n =? 0); [done|].
  by rewrite lookup_insert_ne.
Qed.

Lemma addInt_same k n (vals : Values) :
  addInt k n vals !! k = if n =? 0 then vals !! k else Some [pretty n].
Proof.
  unfold addInt. destruct (n =? 0); [done|]. by rewrite lookup_insert_eq.
Qed.

Ltac skip_other_keys :=
  repeat first
    [ rewrite addString_other by discriminate
    | rewrite addStrings_other by discriminate
    | rewrite addBool_other by discriminate
    | rewrite addInt_other by discriminate
    | rewrite lookup_insert_ne by discriminate ].

Ltac form_lookup :=
  skip_other_keys;
  first [ rewrite addString_same | rewrite addStrings_same
        | rewrite addBool_same | rewrite addInt_same ];
  skip_other_keys; rewrite lookup_empty; reflexivity.

Section ClientFacts.

Variable transport : list Event -> OutRequest -> NetResult.

Lemma RequestRPT_run kc accessToken request st :
  RequestRPT transport kc accessToken request st =
    (match transport (trace st) (rptCall kc accessToken request) with
     | NetFail e => Err e
     | Reply resp =>
         match DecodeJSONResponse resp with
         | Ok tok => Ok (AccessToken tok)
         | Err e => Err e
         | Panic e => Panic e
         end
     end, logEvent (EvToken (rptCall kc accessToken request)) st).
Proof.
  unfold RequestRPT, bind, lift, PostFormUrlencoded, rptCall, rptForm, ToValues.
  cbn [headerSet oMethod oURL oHeader oBody List.filter fst negb String.eqb
       Ascii.eqb Bool.eqb].
  destruct (transport _ _) as [resp|e]; [|done].
  by destruct (DecodeJSONResponse resp).
Qed.

Lemma DecodeJSONResponse_access_token resp tok fields a :
  DecodeJSONResponse resp = Ok tok ->
  respBody resp = Some (JObj fields) ->
  lookupField "access_token" fields = Some (JStr a) ->
  AccessToken tok = a.
Proof.
  unfold DecodeJSONResponse. intros Hdec Hbody Hfield.
  destruct (ensure2XX resp); [discriminate|].
  rewrite Hbody in Hdec. unfold stringField at 2 in Hdec.
  rewrite Hfield in Hdec.
  destruct (stringField "id_token" fields); try discriminate.
  destruct (stringField "refresh_token" fields); try discriminate.
  by injection Hdec as <-.
Qed.

(** C6. [RequestRPT] makes one call: a form-urlencoded POST to the token
    endpoint, with the bearer access token in the [Authorization] header
    and [grant_type] set to the UMA-ticket grant. Each parameter of the
    request that is provided is in the form under its key, each one that
    is not provided has no key at all, and the [access_token] of a
    successfully decoded answer is returned as it came. *)
Theorem RequestRPT_exchange kc accessToken request st :
  let req := rptCall kc accessToken request in
  let form := rptForm request in
  let out := RequestRPT transport kc accessToken request st in
  snd out = logEvent (EvToken req) st
  /\ oMethod req = "POST"
  /\ oURL req = tokenURL kc
  /\ oHeader req = [("Authorization", "Bearer " +:+ accessToken);
                    ("Content-Type", "application/x-www-form-urlencoded")]
  /\ oBody req = BodyForm form
  /\ form !! "grant_type" = Some ["urn:ietf:params:oauth:grant-type:uma-ticket"]
  /\ form !! "rpt"
     = (if String.eqb (RPT request) "" then None else Some [RPT request])
  /\ form !! "permission"
     = match Permission request with
       | [] => None
       | _ => Some (Permission request)
       end
  /\ form !! "ticket"
     = (if String.eqb (Ticket request) "" then None else Some [Ticket request])
  /\ form !! "claim_token"
     = (if String.eqb (ClaimToken request) "" then None
        else Some [ClaimToken request])
  /\ form !! "claim_token_format"
     = (if String.eqb (ClaimTokenFormat_ request) "" then None
        else Some [ClaimTokenFormat_ request])
  /\ form !! "audience"
     = (if String.eqb (Audience request) "" then None
        else Some [Audience request])
  /\ form !! "response_include_resource_name"
     = (if ResponseIncludeResourceName request then Some ["true"] else None)
  /\ form !! "response_permissions_limit"
     = (if ResponsePermissionsLimit request =? 0 then None
        else Some [pretty (ResponsePermissionsLimit request)])
  /\ form !! "submit_request"
     = (if SubmitRequest request then Some ["true"] else None)
  /\ (forall resp tok fields a,
        transport (trace st) req = Reply resp ->
        DecodeJSONResponse resp = Ok tok ->
        respBody resp = Some (JObj fields) ->
        lookupField "access_token" fields = Some (JStr a) ->
        fst out = Ok a).
Proof.
  intros req form out.
  pose proof (RequestRPT_run kc accessToken request st) as Hrun.
  fold req in Hrun. fold out in Hrun.
  split; [by rewrite Hrun|].
  do 4 (split; [done|]).
  subst form. unfold rptForm, ToValues, valuesSet.
  split; [by rewrite lookup_insert_eq|].
  do 9 (split; [form_lookup|]).
  intros resp tok fields a Hnet Hdec Hbody Hfield.
  rewrite Hrun, Hnet, Hdec. simpl.
  by rewrite (DecodeJSONResponse_access_token resp tok fields a).
Qed.

End ClientFacts.

End rpFacts.

(** ** Concrete runs *)

Module Runs.
Import Scenario.

(** C1, at the failing input. The first request for an issuer reaches an
    authorization server whose discovery fails: [getProvider] panics, yet
    the issuer is in the cache afterwards, bound to a provider whose
    endpoints are empty. The next request for the issuer, made when
    discovery would succeed, is served that provider from the cache: the
    state does not change, and discovery has been entered once in all. *)
Theorem failed_discovery_stays_cached :
  let first := getProvider discoveryDown mw userRequest initState in
  let st1 := snd first in
  fst first = Panic (DiscoveryError "connection refused")
  /\ providers st1 !! issuerFor "test-realm" = Some 0%nat
  /\ (fun kp => bpUMADiscovery (base kp)) <$> heap st1 !! 0%nat = Some emptyDiscovery
  /\ getProvider discoveryUp mw userRequest st1
     = (Ok (setProvider userRequest 0%nat, 0%nat), st1)
  /\ constructions (issuerFor "test-realm") (trace st1) = 1%nat
  /\ discoveries (issuerFor "test-realm")
       (trace (snd (getProvider discoveryUp mw userRequest st1))) = 1%nat.
Proof. repeat split; vm_compute; reflexivity. Qed.

(** C9, counterexample. Two requests for one issuer, their statements
    taking turns: both miss the cache, both construct a provider and both
    run discovery, so one issuer gets two constructions and two discovery
    calls. And when the second request arrives right after the first has
    put its provider in the cache, it returns that provider before any
    discovery has taken place. *)
Lemma two_requests_one_issuer_interleaved :
  let run := runSchedule discoveryUp mw [0; 1; 0; 1; 0; 1; 0; 1]%nat
               [AtLookup userRequest; AtLookup userRequest] initState in
  let early := runSchedule discoveryUp mw [0; 0; 0; 1]%nat
                 [AtLookup userRequest; AtLookup userRequest] initState in
  forallb finished (fst run) = true
  /\ constructions (issuerFor "test-realm") (trace (snd run)) = 2%nat
  /\ discoveries (issuerFor "test-realm") (trace (snd run)) = 2%nat
  /\ fst early !! 1%nat = Some (Returned (setProvider userRequest 0%nat) 0%nat)
  /\ (fun kp => bpUMADiscovery (base kp)) <$> heap (snd early) !! 0%nat
     = Some emptyDiscovery
  /\ discoveries (issuerFor "test-realm") (trace (snd early)) = 0%nat.
Proof. repeat split; vm_compute; reflexivity. Qed.

Lemma ready_provider : heap ready !! 0%nat = Some readyProvider.
Proof. vm_compute. reflexivity. Defined.


Lemma non2XX_leaves_state_alone_witness :
  (exists st',
      RegisterResource forbidden 0%nat user42 ready
        = (Err (ProtocolError 403 (Some (JObj [("error", JStr "access_denied")]))),
           user42, st')
      /\ heap st' = heap ready /\ providers st' = providers ready)
  /\ (exists st',
        RequestPermissionTicket forbidden 0%nat "abc" ["read"] ready
          = (Err (ProtocolError 403 (Some (JObj [("error", JStr "access_denied")]))), st')
        /\ heap st' = heap ready /\ providers st' = providers ready).
Proof.
  destruct (non2XX_leaves_state_alone forbidden ready 0%nat readyProvider
              ready_provider) as [Hreg Hticket].
  split.
  - apply (Hreg user42 {| StatusCode := 403;
                          respBody := Some (JObj [("error", JStr "access_denied")]) |});
      vm_compute; reflexivity.
  - apply (Hticket "abc" ["read"]
             {| StatusCode := 403;
                respBody := Some (JObj [("error", JStr "access_denied")]) |});
      vm_compute; reflexivity.
Defined.


Lemma RequestRPT_exchange_witness :
  fst (rp.RequestRPT tokenIssued kc "user-token" incremental initState) = Ok "rpt-2".
Proof.
  destruct (rpFacts.RequestRPT_exchange tokenIssued kc "user-token" incremental
              initState) as (_ & _ & _ & _ & _ & _ & _ & _ & _ & _ & _ & _ & _ & _ & _ & Hok).
  apply (Hok {| StatusCode := 200;
                respBody := Some (JObj [("access_token", JStr "rpt-2");
                                        ("token_type", JStr "Bearer")]) |}
             {| rp.IDToken := ""; rp.AccessToken := "rpt-2"; rp.RefreshToken := "" |}
             [("access_token", JStr "rpt-2"); ("token_type", JStr "Bearer")]);
    vm_compute; reflexivity.
Defined.

Lemma no_match_passes_through_witness :
  ServeHTTP created discoveryUp mw unrelatedRequest initState
    = (Ok tt, logEvent (EvNext unrelatedRequest) initState).
Proof.
  apply (no_match_passes_through created discoveryUp mw unrelatedRequest initState).
  vm_compute. reflexivity.
Defined.

(** The three failures, one run each: an unsupported provider type, a
    discovery that fails, a registration refused with 403. *)
Lemma setup_failure_aborts_witness :
  (exists e st' evs,
      ServeHTTP created discoveryUp mwUnsupported userRequest initState = (Panic e, st')
      /\ trace st' = trace initState ++ evs /\ quiet evs)
  /\ (exists e st' evs,
        ServeHTTP created discoveryDown mw userRequest initState = (Panic e, st')
        /\ trace st' = trace initState ++ evs /\ quiet evs)
  /\ (exists e st' evs,
        ServeHTTP forbidden discoveryUp mw userRequest initState = (Panic e, st')
        /\ trace st' = trace initState ++ evs /\ quiet evs).
Proof.
  split; [|split].
  - apply (setup_failure_aborts created discoveryUp mwUnsupported userRequest
             initState (setResource userRequest user42) user42).
    + vm_compute. reflexivity.
    + left. split; vm_compute; reflexivity.
  - apply (setup_failure_aborts created discoveryDown mw userRequest
             initState (setResource userRequest user42) user42).
    + vm_compute. reflexivity.
    + right. left. split; [|split].
      * vm_compute. reflexivity.
      * vm_compute. reflexivity.
      * exists (DiscoveryError "connection refused"). reflexivity.
  - apply (setup_failure_aborts forbidden discoveryUp mw userRequest
             initState (setResource userRequest user42) user42).
    + vm_compute. reflexivity.
    + right. right.
      exists (setProvider (setResource userRequest user42) 0%nat), 0%nat,
        (snd (getProvider discoveryUp mw (setResource userRequest user42) initState)),
        (ProtocolError 403 (Some (JObj [("error", JStr "access_denied")]))),
        user42,
        (snd (RegisterResource forbidden 0%nat user42
                (snd (getProvider discoveryUp mw (setResource userRequest user42)
                        initState)))).
      split; vm_compute; reflexivity.
Defined.


Lemma infoOf_Keycloak r : String.eqb (Type_ (infoOf Keycloak r)) Keycloak = true.
Proof. reflexivity. Defined.

Lemma discoveryUp_succeeds tr issuer : exists d, discoveryUp tr issuer = Ok d.
Proof. by eexists. Defined.

(** Three requests, two issuers: one construction and one discovery call
    for each of the two, none for a third, and a cache of discovered
    providers. *)
Lemma sequential_one_discovery_per_issuer_witness :
  let st := runSequential (getProvider discoveryUp mw)
              [userRequest; otherRealmRequest; userRequest] initState in
  (constructions (issuerFor "test-realm") (trace st) = 1%nat
   /\ discoveries (issuerFor "test-realm") (trace st) = 1%nat)
  /\ (constructions (issuerFor "other-realm") (trace st) = 1%nat
      /\ discoveries (issuerFor "other-realm") (trace st) = 1%nat)
  /\ (constructions (issuerFor "third-realm") (trace st) = 0%nat
      /\ discoveries (issuerFor "third-realm") (trace st) = 0%nat)
  /\ initialised discoveryUp st.
Proof.
  simpl.
  destruct (sequential_one_discovery_per_issuer discoveryUp mw
              [userRequest; otherRealmRequest; userRequest]
              (fun r _ => infoOf_Keycloak r) discoveryUp_succeeds)
    as [Hcount Hinit].
  split; [|split; [|split]].
  - exact (Hcount (issuerFor "test-realm")).
  - exact (Hcount (issuerFor "other-realm")).
  - exact (Hcount (issuerFor "third-realm")).
  - exact Hinit.
Defined.

End Runs.


(** * Further properties of the code *)

(** ** The mock resource store *)

Module storeFacts.
Import mockResourceStore.

(** X1. What [Set] stores under a name is what [Get] returns for it, other
    names read as before, and a second [Set] on the name replaces the first. *)
Theorem Get_after_Set (s : gmap string string) (name id id' other : string) :
  Get (Set_ s name id) name = id
  /\ (other <> name -> Get (Set_ s name id) other = Get s other)
  /\ Get (Set_ (Set_ s name id) name id') name = id'.
Proof.
  unfold Get, Set_. repeat split.
  - by rewrite lookup_insert_eq.
  - intros Hne. by rewrite lookup_insert_ne.
  - by rewrite lookup_insert_eq.
Qed.

(** X2. [Get] answers the empty string exactly when the name is missing or
    was stored with the empty ID: the two cannot be told apart. *)
Theorem Get_empty_iff (s : gmap string string) (name : string) :
  Get s name = "" <-> s !! name = None \/ s !! name = Some "".
Proof.
  unfold Get. destruct (s !! name) as [id|]; split.
  - intros ->. by right.
  - intros [H|H]; [discriminate|]. by injection H.
  - by left.
  - done.
Qed.

End storeFacts.

(** ** More on registration and permission tickets *)

Section MoreEngineFacts.

Variable transport : list Event -> OutRequest -> NetResult.

(** What a call of [RegisterResource] can do to the state: nothing but one
    logged call, or that plus one new entry in the cache of [p]. *)
Lemma RegisterResource_effect st p resource :
  let out := RegisterResource transport p resource st in
  (exists e, fst (fst out) = Panic e /\ snd out = st /\ heap st !! p = None)
  \/ (exists kp rid,
        heap st !! p = Some kp /\
        registeredResources (base kp) !! Name resource = Some rid /\
        out = (Ok tt, setID resource rid, st))
  \/ (exists kp,
        heap st !! p = Some kp /\
        registeredResources (base kp) !! Name resource = None /\
        ((exists e, out = (Err e, resource,
                           logEvent (EvCall p (registrationRequest kp resource)) st))
         \/ (exists rid, out = (Ok tt, setID resource rid,
                                registered p kp (Name resource) rid
                                  (logEvent (EvCall p (registrationRequest kp resource)) st))))).
Proof.
  simpl. destruct (heap st !! p) as [kp|] eqn:Hp.
  - destruct (registeredResources (base kp) !! Name resource) as [rid|] eqn:Hreg.
    + right. left. exists kp, rid.
      by rewrite (RegisterResource_hit transport st p kp resource rid Hp Hreg).
    + right. right. exists kp. split; [done|]. split; [done|].
      rewrite (RegisterResource_miss transport st p kp resource Hp Hreg).
      destruct (transport _ _) as [resp|e]; [|left; by eexists].
      destruct (ensure2XX resp) as [err|]; [left; by eexists|].
      destruct (decodeJSONResponse resp "_id") as [rid|e|e] eqn:Hdec.
      * right. by eexists.
      * left. by eexists.
      * exfalso. unfold decodeJSONResponse, stringField in Hdec.
        repeat case_match; discriminate.
  - left. unfold RegisterResource, registerResource, bind, getP. rewrite Hp.
    by eexists.
Qed.


(** X7. Whatever its outcome, [RegisterResource] on [p] leaves the provider
    cache alone and keeps every provider in place: another provider is not
    touched at all, and [p] keeps its issuer, credentials, key set and
    endpoints and every name it had registered, under the same ID. *)
Theorem RegisterResource_keeps_registrations st p resource :
  let st' := snd (RegisterResource transport p resource st) in
  providers st' = providers st
  /\ forall q kq,
       heap st !! q = Some kq ->
       exists kq',
         heap st' !! q = Some kq'
         /\ sameIdentity (base kq') (base kq)
         /\ (q <> p -> kq' = kq)
         /\ forall name id,
              registeredResources (base kq) !! name = Some id ->
              registeredResources (base kq') !! name = Some id.
Proof.
  simpl.
  destruct (RegisterResource_effect st p resource)
    as [(e' & _ & -> & _)|[(kp & rid & _ & _ & ->)|(kp & Hp & Hreg & Hout)]];
    simpl in *.
  - split; [done|]. intros q kq Hq. exists kq. by repeat split.
  - split; [done|]. intros q kq Hq. exists kq. by repeat split.
  - destruct Hout as [[e' ->]|[rid ->]]; simpl.
    + split; [done|]. intros q kq Hq. exists kq. by repeat split.
    + split; [done|]. intros q kq Hq.
      destruct (decide (q = p)) as [->|Hne].
      * assert (kq = kp) as -> by congruence.
        eexists. split; [apply list_lookup_insert_eq; by eapply lookup_lt_Some|].
        split; [by repeat split|]. split; [done|].
        intros name id Hname. simpl. rewrite lookup_insert_ne; [done|].
        intros <-. congruence.
      * exists kq. rewrite list_lookup_insert_ne by done. by repeat split.
Qed.

(** X8. After a successful [RegisterResource] the cache of the provider
    maps the resource's name to the ID now on the resource, and the call
    wrote nothing of the resource but its ID. *)
Theorem RegisterResource_records_the_ID st p resource resource' st' :
  RegisterResource transport p resource st = (Ok tt, resource', st') ->
  (exists kp',
      heap st' !! p = Some kp'
      /\ registeredResources (base kp') !! Name resource = Some (ID resource'))
  /\ Name resource' = Name resource
  /\ URI resource' = URI resource
  /\ resourceType resource' = resourceType resource.
Proof.
  intros Hrun.
  destruct (RegisterResource_effect st p resource)
    as [(e' & He & _)|[(kp & rid & Hp & Hreg & Hout)|(kp & Hp & Hreg & Hout)]];
    simpl in *.
  - rewrite Hrun in He. discriminate.
  - rewrite Hrun in Hout. injection Hout as -> ->. split; [|done].
    by exists kp.
  - rewrite Hrun in Hout. destruct Hout as [[e' Hout]|[rid Hout]]; [discriminate|].
    injection Hout as -> ->. split; [|done].
    eexists. split.
    + simpl. apply list_lookup_insert_eq. by eapply lookup_lt_Some.
    + simpl. by rewrite lookup_insert_eq.
Qed.


End MoreEngineFacts.

(** ** More on the provider cache and the handler *)

Section MoreHandlerFacts.

Variable transport : list Event -> OutRequest -> NetResult.
Variable discoveryDocument : list Event -> string -> res UMADiscovery.
Variable m : middleware.

Local Abbreviation issuerOf r := (Issuer (getProviderInfo m r)).

(** The two ways [getProvider] returns normally: from the cache, or after
    constructing, caching and discovering a new provider. *)
Lemma getProvider_ok_inv r st r' p st' :
  getProvider discoveryDocument m r st = (Ok (r', p), st') ->
  r' = setProvider r p /\
  ((providers st !! issuerOf r = Some p /\ st' = st)
   \/ (providers st !! issuerOf r = None
       /\ String.eqb (Type_ (getProviderInfo m r)) Keycloak = true
       /\ p = length (heap st)
       /\ exists d,
            discoveryDocument (trace (inserted m r st)) (issuerOf r) = Ok d
            /\ st' = discovered m r d st)).
Proof.
  intros Hrun.
  destruct (providers st !! issuerOf r) as [v|] eqn:Hlook.
  { rewrite (getProvider_hit _ _ _ _ _ Hlook) in Hrun.
    injection Hrun as <- <- <-. split; [done|]. by left. }
  destruct (String.eqb (Type_ (getProviderInfo m r)) Keycloak) eqn:Ht.
  - rewrite (getProvider_miss _ _ _ _ Hlook Ht) in Hrun.
    destruct (discoveryDocument _ _) as [d|e|e] eqn:Hd; try discriminate.
    injection Hrun as <- <- <-. split; [done|]. right.
    repeat split; try done. by exists d.
  - by rewrite (getProvider_unsupported _ _ _ _ Hlook Ht) in Hrun.
Qed.

(** X3. The request [getProvider] hands back is the inbound request with
    exactly the returned provider bound in its context, and that provider
    is the one the cache now holds for the request's issuer. *)
Theorem getProvider_binds_the_cached_provider r st r' p st' :
  getProvider discoveryDocument m r st = (Ok (r', p), st') ->
  ctxGetProvider r' = Some p
  /\ providers st' !! issuerOf r = Some p
  /\ reqMethod r' = reqMethod r
  /\ URLPath r' = URLPath r
  /\ reqHeader r' = reqHeader r
  /\ ctxResource r' = ctxResource r.
Proof.
  intros Hrun.
  destruct (getProvider_ok_inv _ _ _ _ _ Hrun)
    as [-> [[Hhit ->]|(_ & _ & -> & d & _ & ->)]].
  - by repeat split.
  - repeat split; try done. unfold discovered, inserted. cbn [providers].
    by rewrite lookup_insert_eq.
Qed.

(** X4. The provider built for the first request of an issuer keeps that
    request's client ID, secret and key set. Every later request for the
    issuer gets this provider from the cache whatever provider type,
    credentials or key set its own [ProviderInfo] carries, and signatures
    are verified with the first request's key set. *)
Theorem first_request_fixes_the_credentials r st r1 p st1 :
  providers st !! issuerOf r = None ->
  getProvider discoveryDocument m r st = (Ok (r1, p), st1) ->
  (exists kp,
      heap st1 !! p = Some kp
      /\ bpClientID (base kp) = ClientID (getProviderInfo m r)
      /\ bpClientSecret (base kp) = ClientSecret (getProviderInfo m r)
      /\ bpKeySet (base kp) = piKeySet (getProviderInfo m r))
  /\ (forall jwt,
        VerifySignature p jwt st1
        = (keyVerifySignature (piKeySet (getProviderInfo m r)) jwt, st1))
  /\ (forall discoveryDocument' (m' : middleware) r',
        Issuer (getProviderInfo m' r') = issuerOf r ->
        getProvider discoveryDocument' m' r' st1 = (Ok (setProvider r' p, p), st1)).
Proof.
  intros Hmiss Hrun.
  destruct (getProvider_ok_inv _ _ _ _ _ Hrun)
    as [-> [[Hhit _]|(_ & _ & -> & d & _ & ->)]]; [congruence|].
  assert (Hheap : heap (discovered m r d st) !! length (heap st)
                  = Some {| base := setDiscovery
                                      (newBaseProvider (issuerOf r)
                                         (ClientID (getProviderInfo m r))
                                         (ClientSecret (getProviderInfo m r))
                                         (piKeySet (getProviderInfo m r))) d |}).
  { unfold discovered, inserted. cbn [heap].
    apply list_lookup_insert_eq. rewrite length_app. simpl. lia. }
  split; [|split].
  - eexists. split; [exact Hheap|]. by repeat split.
  - intros jwt. unfold VerifySignature, bind, lift.
    by rewrite (getP_valid _ _ _ Hheap).
  - intros dd' m' r' Hiss. apply getProvider_hit. rewrite Hiss.
    unfold discovered, inserted. cbn [providers]. by rewrite lookup_insert_eq.
Qed.


(** The one way the handler returns normally for a matched request. *)
Lemma ServeHTTP_ok_inv r st st' r1 resource :
  rm_match (rm m) r = (r1, Some resource) ->
  ServeHTTP transport discoveryDocument m r st = (Ok tt, st') ->
  exists p sta resource' stb,
    getProvider discoveryDocument m r1 st = (Ok (setProvider r1 p, p), sta)
    /\ RegisterResource transport p resource sta = (Ok tt, resource', stb)
    /\ st' = logEvent (EvNext (setResource (setProvider r1 p) resource')) stb.
Proof.
  intros Hmatch. unfold ServeHTTP. rewrite Hmatch. unfold bind.
  destruct (getProvider discoveryDocument m r1 st) as [[[r2 p]|e|e] sta] eqn:Hget;
    try discriminate.
  destruct (getProvider_ok_inv _ _ _ _ _ Hget) as [-> _].
  destruct (RegisterResource transport p resource sta)
    as [[[[]|e|e] resource'] stb] eqn:Hreg; try discriminate.
  unfold next, emit. intros [= <-]. by exists p, sta, resource', stb.
Qed.


(** X12. A request the handler has served once is served again without
    the authorization server: whatever the server and the discovery would
    answer now, the second run only dispatches to the downstream handler,
    with no construction, no discovery and no registration call. *)
Theorem served_request_needs_no_server_again r st st1 :
  ServeHTTP transport discoveryDocument m r st = (Ok tt, st1) ->
  forall transport' discoveryDocument',
  exists r',
    ServeHTTP transport' discoveryDocument' m r st1
    = (Ok tt, logEvent (EvNext r') st1).
Proof.
  intros Hrun transport' discoveryDocument'.
  destruct (rm_match (rm m) r) as [r1 [resource|]] eqn:Hmatch.
  - destruct (ServeHTTP_ok_inv _ _ _ _ _ Hmatch Hrun)
      as (p & sta & resource' & stb & Hget & Hreg & ->).
    destruct (getProvider_ok_inv _ _ _ _ _ Hget) as [_ Hcache].
    assert (Hprov : providers sta !! issuerOf r1 = Some p).
    { destruct Hcache as [[Hhit ->]|(_ & _ & -> & d & _ & ->)]; [done|].
      unfold discovered, inserted. cbn [providers]. by rewrite lookup_insert_eq. }
    destruct (RegisterResource_effect transport sta p resource)
      as [(e' & He & _)|[(kp & rid & Hp & Hname & Hout)|(kp & Hp & Hname & Hout)]];
      simpl in *.
    + rewrite Hreg in He. discriminate.
    + rewrite Hreg in Hout. injection Hout as -> ->.
      eexists. unfold ServeHTTP. rewrite Hmatch. unfold bind.
      rewrite (getProvider_hit discoveryDocument' m r1 _ p) by done.
      rewrite (RegisterResource_hit transport' _ p kp resource rid) by done.
      reflexivity.
    + rewrite Hreg in Hout. destruct Hout as [[e' Hout]|[rid Hout]]; [discriminate|].
      injection Hout as -> ->.
      eexists. unfold ServeHTTP. rewrite Hmatch. unfold bind.
      rewrite (getProvider_hit discoveryDocument' m r1 _ p) by done.
      erewrite (RegisterResource_hit transport' _ p _ resource rid).
      * reflexivity.
      * simpl. apply list_lookup_insert_eq. by eapply lookup_lt_Some.
      * simpl. by rewrite lookup_insert_eq.
  - exists r1. unfold ServeHTTP. by rewrite Hmatch.
Qed.

End MoreHandlerFacts.

(** ** States reached by serving requests *)

Section ReachableFacts.

Variable transport : list Event -> OutRequest -> NetResult.
Variable discoveryDocument : list Event -> string -> res UMADiscovery.
Variable m : middleware.

Local Abbreviation issuerOf r := (Issuer (getProviderInfo m r)).
Local Abbreviation serve := (ServeHTTP transport discoveryDocument m).

(** X13. When the handler returns normally for a matched request, the
    request it dispatched downstream carries the provider the cache holds
    for the issuer, and that provider has the resource's name registered. *)
Theorem downstream_gets_the_registered_provider r st st' r1 resource :
  rm_match (rm m) r = (r1, Some resource) ->
  serve r st = (Ok tt, st') ->
  exists p kp rid r' tr,
    trace st' = tr ++ [EvNext r']
    /\ ctxGetProvider r' = Some p
    /\ providers st' !! issuerOf r1 = Some p
    /\ heap st' !! p = Some kp
    /\ registeredResources (base kp) !! Name resource = Some rid.
Proof.
  intros Hmatch Hrun.
  destruct (ServeHTTP_ok_inv _ _ _ _ _ _ _ _ Hmatch Hrun)
    as (p & sta & resource' & stb & Hget & Hreg & ->).
  destruct (getProvider_ok_inv _ _ _ _ _ _ _ Hget) as [_ Hcache].
  assert (Hprov : providers sta !! issuerOf r1 = Some p).
  { destruct Hcache as [[Hhit ->]|(_ & _ & -> & d & _ & ->)]; [done|].
    unfold discovered, inserted. cbn [providers]. by rewrite lookup_insert_eq. }
  destruct (RegisterResource_effect transport sta p resource)
    as [(e' & He & _)|[(kp & rid & Hp & Hname & Hout)|(kp & Hp & Hname & Hout)]];
    simpl in *.
  - rewrite Hreg in He. discriminate.
  - rewrite Hreg in Hout. injection Hout as -> ->.
    exists p, kp, rid. do 2 eexists. by repeat split.
  - rewrite Hreg in Hout. destruct Hout as [[e' Hout]|[rid Hout]]; [discriminate|].
    injection Hout as -> ->.
    exists p. eexists. exists rid. do 2 eexists.
    split; [reflexivity|]. split; [done|]. split; [done|]. split.
    + simpl. apply list_lookup_insert_eq. by eapply lookup_lt_Some.
    + simpl. by rewrite lookup_insert_eq.
Qed.


Lemma wellFormed_init : wellFormed initState.
Proof. intros issuer p Hp. simpl in Hp. by rewrite lookup_empty in Hp. Qed.

Lemma wellFormed_getProvider r st :
  wellFormed st -> wellFormed (snd (getProvider discoveryDocument m r st)).
Proof.
  intros Hwf.
  destruct (providers st !! issuerOf r) as [v|] eqn:Hlook.
  { by rewrite (getProvider_hit _ _ _ _ _ Hlook). }
  destruct (String.eqb (Type_ (getProviderInfo m r)) Keycloak) eqn:Ht;
    [|by rewrite (getProvider_unsupported _ _ _ _ Hlook Ht)].
  rewrite (getProvider_miss _ _ _ _ Hlook Ht).
  assert (Hins : wellFormed (inserted m r st)).
  { intros issuer p. unfold inserted. cbn [providers heap].
    rewrite lookup_insert. case_decide as Heq.
    - intros [= <-]. subst issuer. eexists.
      split; [by rewrite lookup_app_r, Nat.sub_diag|done].
    - intros Hp. destruct (Hwf issuer p Hp) as (kp & Hkp & Hiss).
      exists kp. split; [|done]. by rewrite lookup_app_l by (by eapply lookup_lt_Some). }
  destruct (discoveryDocument _ _) as [d|e|e]; [|done|done].
  intros issuer p Hp. cbn [snd] in *. unfold discovered in *. cbn [providers heap] in *.
  destruct (Hins issuer p Hp) as (kp & Hkp & Hiss).
  destruct (decide (p = length (heap st))) as [->|Hne].
  - eexists. split.
    + apply list_lookup_insert_eq. by eapply lookup_lt_Some.
    + unfold inserted in Hkp. cbn [heap] in Hkp.
      rewrite lookup_app_r, Nat.sub_diag in Hkp by done.
      injection Hkp as <-. exact Hiss.
  - exists kp. split; [|done]. by rewrite list_lookup_insert_ne.
Qed.

Lemma wellFormed_RegisterResource p resource st :
  wellFormed st -> wellFormed (snd (RegisterResource transport p resource st)).
Proof.
  intros Hwf.
  destruct (RegisterResource_effect transport st p resource)
    as [(e' & _ & -> & _)|[(kp & rid & _ & _ & ->)|(kp & Hp & Hreg & Hout)]];
    simpl in *; try done.
  destruct Hout as [[e' ->]|[rid ->]]; [done|].
  intros issuer q Hq. cbn [snd registered logEvent providers heap] in *.
  destruct (Hwf issuer q Hq) as (kq & Hkq & Hiss).
  destruct (decide (q = p)) as [->|Hne].
  - eexists. split; [apply list_lookup_insert_eq; by eapply lookup_lt_Some|].
    simpl. congruence.
  - exists kq. split; [|done]. by rewrite list_lookup_insert_ne.
Qed.

Lemma wellFormed_serve r st : wellFormed st -> wellFormed (snd (serve r st)).
Proof.
  intros Hwf. unfold ServeHTTP.
  destruct (rm_match (rm m) r) as [r1 [resource|]]; [|done].
  unfold bind.
  pose proof (wellFormed_getProvider r1 st Hwf) as Hwf1.
  destruct (getProvider discoveryDocument m r1 st) as [[[r2 p]|e|e] sta]; try done.
  pose proof (wellFormed_RegisterResource p resource sta Hwf1) as Hwf2.
  by destruct (RegisterResource transport p resource sta) as [[[[]|e|e] resource'] stb].
Qed.

Lemma wellFormed_run rs st :
  wellFormed st -> wellFormed (runSequential serve rs st).
Proof.
  revert st. induction rs as [|r rs IH]; intros st Hwf; [done|].
  simpl. apply IH. by apply wellFormed_serve.
Qed.

(** X14. However many requests the handler has served, whatever they
    failed on, a provider found in the cache under an issuer is live and
    answers [AuthorizationServerURI] with that issuer. *)
Theorem cached_provider_answers_with_its_issuer (rs : list Request) issuer p :
  let st := runSequential serve rs initState in
  providers st !! issuer = Some p ->
  AuthorizationServerURI p st = (Ok issuer, st).
Proof.
  simpl. intros Hp.
  destruct (wellFormed_run rs initState wellFormed_init issuer p Hp) as (kp & Hkp & <-).
  unfold AuthorizationServerURI, bind. by rewrite (getP_valid _ _ _ Hkp).
Qed.

(** X15. Two issuers never share a provider: in every state reached by
    serving requests, different issuers in the cache are bound to different
    provider instances. *)
Theorem issuers_do_not_share_providers (rs : list Request) issuer1 issuer2 p1 p2 :
  let st := runSequential serve rs initState in
  providers st !! issuer1 = Some p1 ->
  providers st !! issuer2 = Some p2 ->
  issuer1 <> issuer2 ->
  p1 <> p2.
Proof.
  simpl. intros Hp1 Hp2 Hne ->.
  destruct (wellFormed_run rs initState wellFormed_init issuer1 p2 Hp1) as (k1 & Hk1 & Hi1).
  destruct (wellFormed_run rs initState wellFormed_init issuer2 p2 Hp2) as (k2 & Hk2 & Hi2).
  congruence.
Qed.

End ReachableFacts.

(** ** The client grants *)

Module rpGrantFacts.
Import rp rpGrants.

Section GrantFacts.

Variable transport : list Event -> OutRequest -> NetResult.
Variable oidcNewProvider : HttpClient -> string -> res string.
Variable ClientCreds : Type.
Variable decodeClientCreds : Response -> res ClientCreds.

Lemma PostFormUrlencoded_plain c url values st :
  PostFormUrlencoded transport c url None values st
  = (match transport (trace st) (formPost url values) with
     | Reply resp => Ok resp
     | NetFail e => Err e
     end, logEvent (EvToken (formPost url values)) st).
Proof.
  unfold PostFormUrlencoded, formPost. by destruct (transport _ _).
Qed.

Lemma DecodeJSONResponse_refresh_token resp tok fields t :
  DecodeJSONResponse resp = Ok tok ->
  respBody resp = Some (JObj fields) ->
  lookupField "refresh_token" fields = Some (JStr t) ->
  RefreshToken tok = t.
Proof.
  unfold DecodeJSONResponse. intros Hdec Hbody Hfield.
  destruct (ensure2XX resp); [discriminate|].
  rewrite Hbody in Hdec. unfold stringField at 3 in Hdec.
  rewrite Hfield in Hdec.
  destruct (stringField "id_token" fields); try discriminate.
  destruct (stringField "access_token" fields); try discriminate.
  by injection Hdec as <-.
Qed.

Lemma RefreshCredentials_run kc creds st :
  RefreshCredentials transport kc creds st
  = (match transport (trace st)
             (formPost (tokenURL kc) (refreshForm kc (RefreshToken creds))) with
     | Reply resp => DecodeJSONResponse resp
     | NetFail e => Err e
     end,
     logEvent (EvToken (formPost (tokenURL kc) (refreshForm kc (RefreshToken creds)))) st).
Proof.
  unfold RefreshCredentials, bind, lift, ret. rewrite PostFormUrlencoded_plain.
  fold (refreshForm kc (RefreshToken creds)).
  destruct (transport _ _) as [resp|e]; [|done].
  by destruct (DecodeJSONResponse resp).
Qed.

Lemma AuthenticateUserWithPassword_run kc username password st :
  AuthenticateUserWithPassword transport kc username password st
  = (match transport (trace st)
             (formPost (tokenURL kc) (passwordForm kc username password)) with
     | Reply resp => DecodeJSONResponse resp
     | NetFail e => Err e
     end,
     logEvent (EvToken (formPost (tokenURL kc) (passwordForm kc username password))) st).
Proof.
  unfold AuthenticateUserWithPassword, bind, lift, ret.
  rewrite PostFormUrlencoded_plain. fold (passwordForm kc username password).
  destruct (transport _ _) as [resp|e]; [|done].
  by destruct (DecodeJSONResponse resp).
Qed.

(** X16. [RefreshCredentials] uses nothing of the credentials but the
    refresh token: credentials with the same refresh token give the same
    call and the same result. The call is a single POST to the token
    endpoint of four parameters, the refresh token among them, and the
    provider cache and heap are not touched. *)
Theorem RefreshCredentials_uses_only_the_refresh_token kc creds creds' st :
  RefreshToken creds = RefreshToken creds' ->
  RefreshCredentials transport kc creds st = RefreshCredentials transport kc creds' st
  /\ exists form,
       snd (RefreshCredentials transport kc creds st)
       = logEvent (EvToken (formPost (tokenURL kc) form)) st
       /\ form !! "refresh_token" = Some [RefreshToken creds]
       /\ form !! "grant_type" = Some ["refresh_token"]
       /\ size form = 4%nat.
Proof.
  intros Heq. split.
  - by rewrite !RefreshCredentials_run, Heq.
  - exists (refreshForm kc (RefreshToken creds)).
    rewrite RefreshCredentials_run. by repeat split.
Qed.

(** X17. The refresh token travels unchanged from one grant to the next:
    when the password grant is answered with a body whose [refresh_token]
    is [t], refreshing the credentials it returned posts [t] as the
    [refresh_token] parameter, in the call right after the password call. *)
Theorem password_then_refresh kc username password st tok st1 resp fields t :
  AuthenticateUserWithPassword transport kc username password st = (Ok tok, st1) ->
  transport (trace st) (formPost (tokenURL kc) (passwordForm kc username password))
  = Reply resp ->
  respBody resp = Some (JObj fields) ->
  lookupField "refresh_token" fields = Some (JStr t) ->
  exists form,
    trace (snd (RefreshCredentials transport kc tok st1))
    = trace st ++ [EvToken (formPost (tokenURL kc) (passwordForm kc username password));
                   EvToken (formPost (tokenURL kc) form)]
    /\ form !! "refresh_token" = Some [t].
Proof.
  intros Hrun Hnet Hbody Hfield.
  rewrite AuthenticateUserWithPassword_run, Hnet in Hrun.
  injection Hrun as Hdec <-.
  exists (refreshForm kc t). rewrite RefreshCredentials_run.
  rewrite (DecodeJSONResponse_refresh_token resp tok fields t Hdec Hbody Hfield).
  cbn [snd]. unfold logEvent. cbn [trace]. rewrite <- app_assoc.
  split; [done|]. done.
Qed.

(** X18. A client that [NewKeycloakClient] returned sends the password grant
    to the token endpoint OIDC discovery gave, with the client ID and secret
    it was created with in the form and no [Authorization] header; the grant
    makes this one call, returns a transport failure as it is, and leaves
    provider cache and heap alone. When OIDC discovery fails there is no
    client: the error is returned. *)
Theorem password_grant_of_a_new_client issuer id secret client username password st :
  match oidcNewProvider client issuer with
  | Ok url =>
      exists kc form,
        NewKeycloakClient oidcNewProvider issuer id secret client = Ok kc
        /\ let out := AuthenticateUserWithPassword transport kc username password st in
           let req := formPost url form in
           snd out = logEvent (EvToken req) st
           /\ form !! "client_id" = Some [id]
           /\ form !! "client_secret" = Some [secret]
           /\ form !! "username" = Some [username]
           /\ form !! "password" = Some [password]
           /\ form !! "scope" = Some ["openid"]
           /\ form !! "grant_type" = Some ["password"]
           /\ size form = 6%nat
           /\ List.find (fun kv => String.eqb (fst kv) "Authorization") (oHeader req)
              = None
           /\ (forall e, transport (trace st) req = NetFail e -> fst out = Err e)
  | Err e => NewKeycloakClient oidcNewProvider issuer id secret client = Err e
  | Panic e => NewKeycloakClient oidcNewProvider issuer id secret client = Panic e
  end.
Proof.
  unfold NewKeycloakClient.
  destruct (oidcNewProvider client issuer) as [url|e|e]; [|done|done].
  eexists. eexists (passwordForm _ username password).
  split; [reflexivity|]. cbv zeta. rewrite AuthenticateUserWithPassword_run.
  cbn [fst snd tokenURL clientID clientSecret].
  repeat split; try done.
  intros e Hnet. by rewrite Hnet.
Qed.

(** X19. [Authenticate] sends the client-credentials grant: one POST to the
    token endpoint of exactly three parameters, the client's ID and secret
    and the grant type, with no [Authorization] header; what it returns is
    the decoded answer, or the transport failure as it is. *)
Theorem Authenticate_sends_client_credentials kc st :
  exists form,
    let req := formPost (tokenURL kc) form in
    Authenticate transport ClientCreds decodeClientCreds kc st
    = (match transport (trace st) req with
       | Reply resp => decodeClientCreds resp
       | NetFail e => Err e
       end, logEvent (EvToken req) st)
    /\ form !! "grant_type" = Some ["client_credentials"]
    /\ form !! "client_id" = Some [clientID kc]
    /\ form !! "client_secret" = Some [clientSecret kc]
    /\ size form = 3%nat
    /\ List.find (fun kv => String.eqb (fst kv) "Authorization") (oHeader req) = None.
Proof.
  exists (clientCredentialsForm kc). cbv zeta. split; [|by repeat split].
  unfold Authenticate, bind, lift. rewrite PostFormUrlencoded_plain.
  fold (clientCredentialsForm kc).
  destruct (transport _ _) as [resp|e]; [|done].
  by destruct (decodeClientCreds resp).
Qed.

(** X21. [RequestRPT] acts for the user, not for the client: it never reads
    the client ID or secret, so two clients with the same token endpoint and
    HTTP client make the same call and get the same result. *)
Theorem RequestRPT_ignores_client_credentials kc kc' accessToken request st :
  tokenURL kc = tokenURL kc' ->
  kcClient kc = kcClient kc' ->
  RequestRPT transport kc accessToken request st
  = RequestRPT transport kc' accessToken request st.
Proof.
  intros Hurl Hclient. unfold RequestRPT. by rewrite Hurl, Hclient.
Qed.

End GrantFacts.

End rpGrantFacts.


(** ** The registration closure and a known issuer *)

Section ClosureFacts.

Variable transport : list Event -> OutRequest -> NetResult.
Variable discoveryDocument : list Event -> string -> res UMADiscovery.
Variable m : middleware.

(** X9. [registerResource] runs the closure it is given only when the name
    is not in the cache, and then once: on a hit the cached ID comes back
    and the state is untouched whatever the closure would do; on a miss an
    error or panic of the closure is the result and nothing is cached; a
    successful closure has its ID cached under the name, on top of whatever
    the closure itself did to the state. *)
Theorem registerResource_runs_the_closure_on_a_miss_only st p kp resource
    (register : M string) :
  heap st !! p = Some kp ->
  match registeredResources (base kp) !! Name resource with
  | Some s => registerResource p resource register st = (Ok s, st)
  | None =>
      match register st with
      | (Ok id, st1) =>
          forall kp1,
            heap st1 !! p = Some kp1 ->
            registerResource p resource register st
            = (Ok id, registered p kp1 (Name resource) id st1)
      | (Err e, st1) => registerResource p resource register st = (Err e, st1)
      | (Panic e, st1) => registerResource p resource register st = (Panic e, st1)
      end
  end.
Proof.
  intros Hp. unfold registerResource, bind. rewrite (getP_valid _ _ _ Hp).
  destruct (registeredResources (base kp) !! Name resource) as [s|]; [done|].
  destruct (register st) as [[id|e|e] st1]; [|done|done].
  intros kp1 Hp1. unfold modP, ret. by rewrite Hp1.
Qed.


End ClosureFacts.

(** ** More concrete runs *)

Module MoreRuns.
Import Scenario MoreScenario.

Lemma Get_after_Set_witness :
  mockResourceStore.Get store "Users" = "users-id"
  /\ mockResourceStore.Get (mockResourceStore.Set_ store "User 1" "u1") "Users"
     = "users-id".
Proof.
  split.
  - apply (storeFacts.Get_after_Set ∅ "Users" "users-id" "" "User 1").
  - rewrite (proj1 (proj2 (storeFacts.Get_after_Set store "User 1" "u1" "" "Users")));
      [reflexivity|discriminate].
Defined.

Lemma Get_empty_iff_witness :
  mockResourceStore.Get store "User 1" = ""
  /\ mockResourceStore.Get (mockResourceStore.Set_ store "User 1" "") "User 1" = "".
Proof.
  split.
  - apply (proj2 (storeFacts.Get_empty_iff store "User 1")). left. reflexivity.
  - apply (proj2 (storeFacts.Get_empty_iff
                    (mockResourceStore.Set_ store "User 1" "") "User 1")).
    right. reflexivity.
Defined.


Lemma RegisterResource_keeps_registrations_witness :
  exists kp',
    heap (snd (RegisterResource created 0%nat user7 registeredState)) !! 0%nat = Some kp'
    /\ registeredResources (base kp') !! "User 42" = Some "rid-1"
    /\ bpUMADiscovery (base kp') = documentOf (issuerFor "test-realm").
Proof.
  destruct (RegisterResource_keeps_registrations created registeredState 0%nat user7)
    as [_ Hkeep].
  destruct (Hkeep 0%nat
              {| base := setRegistered (base readyProvider) {[ "User 42" := "rid-1" ]} |})
    as (kp' & Hkp' & Hsame & _ & Hnames).
  { vm_compute. reflexivity. }
  exists kp'. split; [exact Hkp'|]. split.
  - apply Hnames. vm_compute. reflexivity.
  - destruct Hsame as (_ & _ & _ & _ & Hdoc). rewrite Hdoc. reflexivity.
Defined.

Lemma RegisterResource_records_the_ID_witness :
  (exists kp',
      heap registeredState !! 0%nat = Some kp'
      /\ registeredResources (base kp') !! "User 42" = Some "rid-1")
  /\ Name (setID user42 "rid-1") = "User 42"
  /\ URI (setID user42 "rid-1") = URI user42
  /\ resourceType (setID user42 "rid-1") = resourceType user42.
Proof.
  apply (RegisterResource_records_the_ID created ready 0%nat user42
           (setID user42 "rid-1") registeredState).
  vm_compute. reflexivity.
Defined.


Lemma getProvider_binds_the_cached_provider_witness :
  ctxGetProvider (setProvider userRequest 0%nat) = Some 0%nat
  /\ providers ready !! issuerFor "test-realm" = Some 0%nat.
Proof.
  destruct (getProvider_binds_the_cached_provider discoveryUp mw userRequest initState
              (setProvider userRequest 0%nat) 0%nat ready) as (Hctx & Hcache & _).
  { vm_compute. reflexivity. }
  split; [exact Hctx|exact Hcache].
Defined.

(** The second middleware names the unsupported type, and is served the
    provider the first request built all the same. *)
Lemma first_request_fixes_the_credentials_witness :
  getProvider discoveryDown mwUnsupported otherRealmRequest
    (snd (getProvider discoveryUp mw otherRealmRequest ready))
  = (Ok (setProvider otherRealmRequest 1%nat, 1%nat),
     snd (getProvider discoveryUp mw otherRealmRequest ready)).
Proof.
  destruct (first_request_fixes_the_credentials discoveryUp mw otherRealmRequest ready
              (setProvider otherRealmRequest 1%nat) 1%nat
              (snd (getProvider discoveryUp mw otherRealmRequest ready)))
    as (_ & _ & Hlater).
  { vm_compute. reflexivity. }
  { vm_compute. reflexivity. }
  apply (Hlater discoveryDown mwUnsupported otherRealmRequest). reflexivity.
Defined.


Lemma served_request_needs_no_server_again_witness :
  exists r',
    ServeHTTP unreachable discoveryDown mw userRequest
      (snd (ServeHTTP created discoveryUp mw userRequest initState))
    = (Ok tt, logEvent (EvNext r')
                (snd (ServeHTTP created discoveryUp mw userRequest initState))).
Proof.
  apply (served_request_needs_no_server_again created discoveryUp mw userRequest
           initState (snd (ServeHTTP created discoveryUp mw userRequest initState))).
  vm_compute. reflexivity.
Defined.

Lemma downstream_gets_the_registered_provider_witness :
  exists p kp rid r' tr,
    trace (snd (ServeHTTP created discoveryUp mw userRequest initState))
    = tr ++ [EvNext r']
    /\ ctxGetProvider r' = Some p
    /\ providers (snd (ServeHTTP created discoveryUp mw userRequest initState))
         !! issuerFor "test-realm" = Some p
    /\ heap (snd (ServeHTTP created discoveryUp mw userRequest initState)) !! p = Some kp
    /\ registeredResources (base kp) !! "User 42" = Some rid.
Proof.
  apply (downstream_gets_the_registered_provider created discoveryUp mw userRequest
           initState (snd (ServeHTTP created discoveryUp mw userRequest initState))
           (setResource userRequest user42) user42);
    vm_compute; reflexivity.
Defined.


Lemma cached_provider_answers_with_its_issuer_witness :
  let st := runSequential (ServeHTTP created discoveryUp mw)
              [userRequest; otherRealmRequest] initState in
  AuthorizationServerURI 1%nat st = (Ok (issuerFor "other-realm"), st).
Proof.
  simpl.
  apply (cached_provider_answers_with_its_issuer created discoveryUp mw
           [userRequest; otherRealmRequest] (issuerFor "other-realm") 1%nat).
  vm_compute. reflexivity.
Defined.

Lemma issuers_do_not_share_providers_witness : 0%nat <> 1%nat.
Proof.
  apply (issuers_do_not_share_providers created discoveryUp mw
           [userRequest; otherRealmRequest]
           (issuerFor "test-realm") (issuerFor "other-realm"));
    [vm_compute; reflexivity|vm_compute; reflexivity|discriminate].
Defined.

Lemma RefreshCredentials_uses_only_the_refresh_token_witness :
  rpGrants.RefreshCredentials credentialsIssued kc oldCredentials initState
  = rpGrants.RefreshCredentials credentialsIssued kc strippedCredentials initState.
Proof.
  apply (rpGrantFacts.RefreshCredentials_uses_only_the_refresh_token credentialsIssued
           kc oldCredentials strippedCredentials initState).
  reflexivity.
Defined.

Lemma password_then_refresh_witness :
  exists form,
    trace (snd (rpGrants.RefreshCredentials credentialsIssued kc issuedCredentials
                  (snd (rpGrants.AuthenticateUserWithPassword credentialsIssued kc
                          "alice" "secret" initState))))
    = trace initState
        ++ [EvToken (rpGrants.formPost (rp.tokenURL kc)
                       (rpGrants.passwordForm kc "alice" "secret"));
            EvToken (rpGrants.formPost (rp.tokenURL kc) form)]
    /\ form !! "refresh_token" = Some ["rt-1"].
Proof.
  apply (rpGrantFacts.password_then_refresh credentialsIssued kc "alice" "secret"
           initState issuedCredentials
           (snd (rpGrants.AuthenticateUserWithPassword credentialsIssued kc
                   "alice" "secret" initState))
           {| StatusCode := 200; respBody := Some credentialsBody |}
           [("access_token", JStr "at-1"); ("refresh_token", JStr "rt-1")]);
    vm_compute; reflexivity.
Defined.

Lemma password_grant_of_a_new_client_witness :
  exists kc',
    rpGrants.NewKeycloakClient oidcUp (issuerFor "test-realm") "test-client" "change-me"
      DefaultClient = Ok kc'
    /\ fst (rpGrants.AuthenticateUserWithPassword unreachable kc' "alice" "secret"
              initState)
       = Err (TransportError "connection refused").
Proof.
  pose proof (rpGrantFacts.password_grant_of_a_new_client unreachable oidcUp
                (issuerFor "test-realm") "test-client" "change-me" DefaultClient
                "alice" "secret" initState) as H.
  simpl in H. destruct H as (kc' & form & Hnew & Hsnd & _ & _ & _ & _ & _ & _ & _ & _ & Hfail).
  exists kc'. split; [exact Hnew|].
  apply Hfail. reflexivity.
Defined.

Lemma RequestRPT_ignores_client_credentials_witness :
  rp.RequestRPT tokenIssued kc "user-token" incremental initState
  = rp.RequestRPT tokenIssued kcOther "user-token" incremental initState.
Proof.
  apply (rpGrantFacts.RequestRPT_ignores_client_credentials tokenIssued kc kcOther
           "user-token" incremental initState); reflexivity.
Defined.

Lemma registered_provider :
  heap registeredState !! 0%nat
  = Some {| base := setRegistered (base readyProvider) {[ "User 42" := "rid-1" ]} |}.
Proof. vm_compute. reflexivity. Defined.

(** A closure that must not run is not run on a hit. *)
Lemma registerResource_runs_the_closure_on_a_miss_only_witness :
  registerResource 0%nat user42 (panic (PanicValue "the closure ran")) registeredState
  = (Ok "rid-1", registeredState).
Proof.
  exact (registerResource_runs_the_closure_on_a_miss_only registeredState 0%nat
           {| base := setRegistered (base readyProvider) {[ "User 42" := "rid-1" ]} |}
           user42 (panic (PanicValue "the closure ran")) registered_provider).
Defined.


End MoreRuns.
